(** * Stream processor, tab routing and MCP tool persistence of codestudio

    A shallow embedding of
    - [useClaudeMessages] (handleMessage, clearMessages, loadMessages and the
      "claude-stream" listener), in src/unnamed/part_001;
    - the session-opening handlers of [TabContent] in
      src/src/components/TabContent.tsx, over the tab registry operations of
      [useTabState];
    - the [mcp_server_tools] persistence, the grouping by scope and the
      expanded-server set of src/src/components/MCPServerList.tsx;
    - [detectOS] and [osToWindowControlStyle] of src/src/lib/osDetector.ts
      and the style loading of [WindowControls], the pagination of
      [SessionList] (src/unnamed/part_001) and the tab titles of the
      [TabPanel] callbacks.

    JavaScript values that come out of [JSON.parse] are modelled by [json];
    an object keeps its properties in insertion order as an association
    list, which is the order [JSON.stringify] writes them (for keys that are
    not array indices).  Numbers are modelled as integers. *)

From Stdlib Require Import String Ascii List ZArith Bool Lia.
From Stdlib Require Import Numbers.DecimalString.
Import ListNotations.
Open Scope string_scope.

Module Json.

Local Set Warnings "-register-all".

Inductive json : Type :=
| JNull
| JBool (b : bool)
| JNum (n : Z)
| JStr (s : string)
| JArr (xs : list json)
| JObj (kvs : list (string * json)).

(** Property read [o[k]] on an object; [None] is [undefined].  Named
    properties of primitives and arrays are [undefined] (the [length] of
    arrays and strings is read by [js_length_positive] below). *)
Fixpoint assoc {A} (k : string) (kvs : list (string * A)) : option A :=
  match kvs with
  | [] => None
  | (k', v) :: r => if String.eqb k k' then Some v else assoc k r
  end.

Definition get (v : json) (k : string) : option json :=
  match v with
  | JObj kvs => assoc k kvs
  | _ => None
  end.

(** Optional chaining [v?.k] on a possibly undefined value. *)
Definition get_opt (v : option json) (k : string) : option json :=
  match v with
  | Some JNull | None => None
  | Some w => get w k
  end.

(** Property write [o[k] = v]: an existing key keeps its position, a new
    key is added last. *)
Fixpoint assoc_set {A} (k : string) (v : A) (kvs : list (string * A))
  : list (string * A) :=
  match kvs with
  | [] => [(k, v)]
  | (k', w) :: r =>
      if String.eqb k k' then (k', v) :: r else (k', w) :: assoc_set k v r
  end.

(** JavaScript truthiness of a possibly undefined value. *)
Definition truthy (v : option json) : bool :=
  match v with
  | None | Some JNull => false
  | Some (JBool b) => b
  | Some (JNum n) => negb (Z.eqb n 0)
  | Some (JStr s) => negb (String.eqb s "")
  | Some (JArr _) | Some (JObj _) => true
  end.

(** [a || b] *)
Definition js_or (a : option json) (b : json) : json :=
  if truthy a then match a with Some v => v | None => b end else b.

Definition Z_to_string (n : Z) : string :=
  NilEmpty.string_of_int (Z.to_int n).

(** [String(v)], the conversion used by template literals and by [+] on
    strings. *)
Fixpoint js_to_string (v : json) : string :=
  match v with
  | JNull => "null"
  | JBool true => "true"
  | JBool false => "false"
  | JNum n => Z_to_string n
  | JStr s => s
  | JArr xs =>
      (fix join (l : list json) : string :=
         match l with
         | [] => ""
         | [x] => match x with JNull => "" | _ => js_to_string x end
         | x :: r =>
             (match x with JNull => "" | _ => js_to_string x end)
               ++ "," ++ join r
         end) xs
  | JObj _ => "[object Object]"
  end.

(** [a + b]: string concatenation as soon as one side converts to a
    string (strings, arrays, objects), numeric addition otherwise. *)
Definition to_num (v : json) : Z :=
  match v with
  | JNum n => n
  | JBool true => 1
  | _ => 0
  end.

Definition js_plus (a b : json) : json :=
  match a, b with
  | (JStr _ | JArr _ | JObj _), _ | _, (JStr _ | JArr _ | JObj _) =>
      JStr (js_to_string a ++ js_to_string b)
  | _, _ => JNum (to_num a + to_num b)
  end.


(** [JSON.stringify] *)
Definition hex_digit (n : nat) : ascii :=
  match n with
  | 0 => "0" | 1 => "1" | 2 => "2" | 3 => "3" | 4 => "4" | 5 => "5"
  | 6 => "6" | 7 => "7" | 8 => "8" | 9 => "9" | 10 => "a" | 11 => "b"
  | 12 => "c" | 13 => "d" | 14 => "e" | _ => "f"
  end%char.

Definition escape_char (c : ascii) : string :=
  let n := nat_of_ascii c in
  if Nat.eqb n 34 then String (ascii_of_nat 92) (String c "")
  else if Nat.eqb n 92 then "\\"
  else if Nat.eqb n 8 then "\b"
  else if Nat.eqb n 12 then "\f"
  else if Nat.eqb n 10 then "\n"
  else if Nat.eqb n 13 then "\r"
  else if Nat.eqb n 9 then "\t"
  else if Nat.ltb n 32 then
    "\u00" ++ String (hex_digit (n / 16)) (String (hex_digit (n mod 16)) "")
  else String c "".

Fixpoint escape (s : string) : string :=
  match s with
  | EmptyString => ""
  | String c r => escape_char c ++ escape r
  end.

Definition quote (s : string) : string :=
  String (ascii_of_nat 34) (escape s ++ String (ascii_of_nat 34) "").

Fixpoint stringify (v : json) : string :=
  match v with
  | JNull => "null"
  | JBool true => "true"
  | JBool false => "false"
  | JNum n => Z_to_string n
  | JStr s => quote s
  | JArr xs =>
      "[" ++
      (fix items (l : list json) : string :=
         match l with
         | [] => ""
         | [x] => stringify x
         | x :: r => stringify x ++ "," ++ items r
         end) xs ++ "]"
  | JObj kvs =>
      "{" ++
      (fix props (l : list (string * json)) : string :=
         match l with
         | [] => ""
         | [(k, x)] => quote k ++ ":" ++ stringify x
         | (k, x) :: r => quote k ++ ":" ++ stringify x ++ "," ++ props r
         end) kvs ++ "}"
  end.

(** [JSON.parse] on the part of JSON the examples below use: every value
    form, integer numbers, and the two-character escapes (quote, backslash,
    slash, b, f, n, r, t).  Fractions, exponents and u-escapes are refused ([None]), so this is
    a partial function below [JSON.parse]; the transport code takes its
    parser as a parameter and its theorems hold for any parser. *)
Definition code (c : ascii) : nat := nat_of_ascii c.

Definition is_ws (c : ascii) : bool :=
  let n := code c in
  Nat.eqb n 32 || Nat.eqb n 9 || Nat.eqb n 10 || Nat.eqb n 13.

Fixpoint skip_ws (s : string) : string :=
  match s with
  | String c r => if is_ws c then skip_ws r else s
  | EmptyString => s
  end.

Definition unescape (e : ascii) : option ascii :=
  let n := code e in
  if Nat.eqb n 34 then Some e
  else if Nat.eqb n 92 then Some e
  else if Nat.eqb n 47 then Some e
  else if Nat.eqb n 98 then Some (ascii_of_nat 8)
  else if Nat.eqb n 102 then Some (ascii_of_nat 12)
  else if Nat.eqb n 110 then Some (ascii_of_nat 10)
  else if Nat.eqb n 114 then Some (ascii_of_nat 13)
  else if Nat.eqb n 116 then Some (ascii_of_nat 9)
  else None.

(** The body of a string literal, after its opening quote. *)
Fixpoint string_body (s : string) : option (string * string) :=
  match s with
  | EmptyString => None
  | String c r =>
      if Nat.eqb (code c) 34 then Some ("", r)
      else if Nat.eqb (code c) 92 then
        match r with
        | String e r' =>
            match unescape e, string_body r' with
            | Some d, Some (t, rest) => Some (String d t, rest)
            | _, _ => None
            end
        | EmptyString => None
        end
      else if Nat.ltb (code c) 32 then None
      else match string_body r with
           | Some (t, rest) => Some (String c t, rest)
           | None => None
           end
  end.

Definition is_digit (c : ascii) : bool :=
  Nat.leb 48 (code c) && Nat.leb (code c) 57.

Fixpoint digits (s : string) (acc : Z) : Z * string :=
  match s with
  | String c r =>
      if is_digit c then digits r (10 * acc + Z.of_nat (code c - 48))%Z
      else (acc, s)
  | EmptyString => (acc, s)
  end.

Definition no_fraction (s : string) : bool :=
  match s with
  | String c _ => negb (is_digit c || Nat.eqb (code c) 46
                        || Nat.eqb (code c) 101 || Nat.eqb (code c) 69)
  | EmptyString => true
  end.

(** An unsigned integer: [0] or a digit 1-9 followed by digits. *)
Definition natural (s : string) : option (Z * string) :=
  match s with
  | String c r =>
      if Nat.eqb (code c) 48 then
        if no_fraction r then Some (0%Z, r) else None
      else if is_digit c then
        let '(n, rest) := digits s 0%Z in
        if no_fraction rest then Some (n, rest) else None
      else None
  | EmptyString => None
  end.

Definition number (s : string) : option (json * string) :=
  match s with
  | String c r =>
      if Nat.eqb (code c) 45 then
        match natural r with
        | Some (n, rest) => Some (JNum (- n), rest)
        | None => None
        end
      else match natural s with
           | Some (n, rest) => Some (JNum n, rest)
           | None => None
           end
  | EmptyString => None
  end.

Definition literal (word : string) (v : json) (s : string)
  : option (json * string) :=
  if String.prefix word s
  then Some (v, substring (String.length word) (String.length s) s)
  else None.

Definition first_is (n : nat) (s : string) : bool :=
  match s with
  | String c _ => Nat.eqb (code c) n
  | EmptyString => false
  end.

Definition tail (s : string) : string :=
  match s with
  | String _ r => r
  | EmptyString => s
  end.

Fixpoint value (fuel : nat) (s : string) {struct fuel}
  : option (json * string) :=
  match fuel with
  | O => None
  | S f =>
      let fix members (g : nat) (s : string) (acc : list (string * json))
          : option (json * string) :=
        match g with
        | O => None
        | S g' =>
            let s := skip_ws s in
            if first_is 34 s then
              match string_body (tail s) with
              | Some (k, rest) =>
                  let rest := skip_ws rest in
                  if first_is 58 rest then
                    match value f (tail rest) with
                    | Some (v, rest') =>
                        let acc := assoc_set k v acc in
                        let rest' := skip_ws rest' in
                        if first_is 44 rest' then members g' (tail rest') acc
                        else if first_is 125 rest' then
                          Some (JObj acc, tail rest')
                        else None
                    | None => None
                    end
                  else None
              | None => None
              end
            else None
        end in
      let fix elements (g : nat) (s : string) (acc : list json)
          : option (json * string) :=
        match g with
        | O => None
        | S g' =>
            match value f s with
            | Some (v, rest) =>
                let rest := skip_ws rest in
                if first_is 44 rest then elements g' (tail rest) (app acc [v])
                else if first_is 93 rest then
                  Some (JArr (app acc [v]), tail rest)
                else None
            | None => None
            end
        end in
      let s := skip_ws s in
      if first_is 123 s then
        if first_is 125 (skip_ws (tail s)) then
          Some (JObj [], tail (skip_ws (tail s)))
        else members f (tail s) []
      else if first_is 91 s then
        if first_is 93 (skip_ws (tail s)) then
          Some (JArr [], tail (skip_ws (tail s)))
        else elements f (tail s) []
      else if first_is 34 s then
        match string_body (tail s) with
        | Some (t, rest) => Some (JStr t, rest)
        | None => None
        end
      else match literal "null" JNull s with
           | Some r => Some r
           | None =>
             match literal "true" (JBool true) s with
             | Some r => Some r
             | None =>
               match literal "false" (JBool false) s with
               | Some r => Some r
               | None => number s
               end
             end
           end
  end.

Definition parse (s : string) : option json :=
  match value (S (String.length s)) s with
  | Some (v, rest) =>
      match skip_ws rest with
      | EmptyString => Some v
      | _ => None
      end
  | None => None
  end.

(** Payload text written with [']  where the JSON text has a double quote. *)
Fixpoint dq (s : string) : string :=
  match s with
  | EmptyString => EmptyString
  | String c r =>
      String (if Nat.eqb (code c) 39 then ascii_of_nat 34 else c) (dq r)
  end.

End Json.

(** ** The stream processor: [useClaudeMessages] *)
Module Stream.
Import Json.

(** Calls of the [options] callbacks, in the order they are made. *)
Inductive notification : Type :=
| StreamingChange (isStreaming : bool) (sessionId : option json)
| TokenUpdate (tokens : json)
| SessionInfo (sessionId projectId : json).

(** The hook's state ([messages], [rawJsonlOutput], [isStreaming],
    [currentSessionId]), the ref [accumulatedContentRef], and what it made
    visible outside: callback calls and [console.error] lines.  Each
    delivered message sees the state committed by the previous one. *)
Record state : Type := mkState {
  messages : list json;
  rawJsonlOutput : list string;
  isStreaming : bool;
  currentSessionId : option json;
  accumulatedContent : list (string * string);
  notified : list notification;
  console : list string
}.

Definition initial : state := mkState [] [] false None [] [] [].

Definition set_accumulated (st : state) a : state :=
  mkState (messages st) (rawJsonlOutput st) (isStreaming st)
    (currentSessionId st) a (notified st) (console st).

Definition set_streaming (st : state) b : state :=
  mkState (messages st) (rawJsonlOutput st) b
    (currentSessionId st) (accumulatedContent st) (notified st) (console st).

Definition set_session (st : state) sid : state :=
  mkState (messages st) (rawJsonlOutput st) (isStreaming st)
    sid (accumulatedContent st) (notified st) (console st).

Definition notify (st : state) n : state :=
  mkState (messages st) (rawJsonlOutput st) (isStreaming st)
    (currentSessionId st) (accumulatedContent st) (app (notified st) [n])
    (console st).

Definition log (st : state) line : state :=
  mkState (messages st) (rawJsonlOutput st) (isStreaming st)
    (currentSessionId st) (accumulatedContent st) (notified st)
    (app (console st) [line]).

Definition set_logs (st : state) msgs raws : state :=
  mkState msgs raws (isStreaming st)
    (currentSessionId st) (accumulatedContent st) (notified st) (console st).

(** Outcome of a handler call: it returns, or a [TypeError] escapes it. *)
Inductive outcome : Type := Returned | Threw (why : string).

Definition type_is (message : json) (t : string) : bool :=
  match get message "type" with
  | Some (JStr t') => String.eqb t' t
  | _ => false
  end.

Definition set_prop (o : json) (k : string) (v : json) : json :=
  match o with
  | JObj kvs => JObj (assoc_set k v kvs)
  | _ => o
  end.

(** [s.trim()] over the ASCII white space characters. *)
Definition is_space (c : ascii) : bool :=
  Nat.eqb (code c) 32 || (Nat.leb 9 (code c) && Nat.leb (code c) 13).

Fixpoint trim_start (s : string) : string :=
  match s with
  | String c r => if is_space c then trim_start r else s
  | EmptyString => s
  end.

Fixpoint trim_end (s : string) : string :=
  match s with
  | String c r =>
      let r' := trim_end r in
      if is_space c && String.eqb r' "" then "" else String c r'
  | EmptyString => s
  end.

Definition trim (s : string) : string := trim_end (trim_start s).

(** [Number(s) > 0] for a string [s]: after [trim], the empty string is
    [0]; a [0x], [0o] or [0b] literal is an integer; otherwise an optional
    sign, then [Infinity] or a decimal literal with an optional exponent;
    anything else is [NaN]. A positive decimal below half the least
    positive double rounds to [+0]. *)
Definition is_digit (c : ascii) : bool :=
  Nat.leb 48 (nat_of_ascii c) && Nat.leb (nat_of_ascii c) 57.

Definition is_oct_digit (c : ascii) : bool :=
  Nat.leb 48 (nat_of_ascii c) && Nat.leb (nat_of_ascii c) 55.

Definition is_bin_digit (c : ascii) : bool :=
  Nat.leb 48 (nat_of_ascii c) && Nat.leb (nat_of_ascii c) 49.

Definition is_hex_digit (c : ascii) : bool :=
  is_digit c
  || (Nat.leb 65 (nat_of_ascii c) && Nat.leb (nat_of_ascii c) 70)
  || (Nat.leb 97 (nat_of_ascii c) && Nat.leb (nat_of_ascii c) 102).

(** The longest prefix of [s] whose characters satisfy [p], and the rest. *)
Fixpoint span_chars (p : ascii -> bool) (s : string) : string * string :=
  match s with
  | String c r =>
      if p c then let '(a, b) := span_chars p r in (String c a, b)
      else ("", s)
  | EmptyString => ("", "")
  end.

Fixpoint decimal_value (s : string) (acc : Z) : Z :=
  match s with
  | EmptyString => acc
  | String c r => decimal_value r (acc * 10 + (Z.of_nat (nat_of_ascii c) - 48))%Z
  end.

(** An [ExponentPart] or nothing: the exponent, [None] for anything else. *)
Definition exponent_part (s : string) : option Z :=
  match s with
  | EmptyString => Some 0%Z
  | String c r =>
      if Ascii.eqb c "e" || Ascii.eqb c "E" then
        let '(sign, r') :=
          match r with
          | String d r' =>
              if Ascii.eqb d "+" then (1%Z, r')
              else if Ascii.eqb d "-" then ((-1)%Z, r') else (1%Z, r)
          | EmptyString => (1%Z, r)
          end in
        let '(ds, rest) := span_chars is_digit r' in
        if negb (String.eqb ds "") && String.eqb rest ""
        then Some (sign * decimal_value ds 0)%Z else None
      else None
  end.

(** A [StrUnsignedDecimalLiteral] with a positive value. *)
Definition unsigned_decimal_positive (s : string) : bool :=
  if String.eqb s "Infinity" then true
  else
    let '(ip, r1) := span_chars is_digit s in
    let '(fp, r2) :=
      match r1 with
      | String c r => if Ascii.eqb c "." then span_chars is_digit r else ("", r1)
      | EmptyString => ("", r1)
      end in
    let ds := ip ++ fp in
    if String.eqb ds "" then false
    else
      match exponent_part r2 with
      | None => false
      | Some e =>
          let mant := decimal_value ds 0 in
          let e' := (e - Z.of_nat (String.length fp))%Z in
          if Z.leb mant 0 then false
          else if Z.leb 0 e' then true
          else Z.leb (- e') (Z.of_nat (String.length ds) + 324)
               && Z.ltb (10 ^ (- e'))%Z (mant * 2 ^ 1075)%Z
      end.

Definition radix_positive (p : ascii -> bool) (r : string) : bool :=
  negb (String.eqb r "") && forallb p (list_ascii_of_string r)
  && existsb (fun c => negb (Ascii.eqb c "0")) (list_ascii_of_string r).

Definition string_number_positive (s : string) : bool :=
  match trim s with
  | EmptyString => false
  | String c r =>
      if Ascii.eqb c "-" then false
      else if Ascii.eqb c "+" then unsigned_decimal_positive r
      else
        match r with
        | String x r' =>
            if Ascii.eqb c "0" && (Ascii.eqb x "x" || Ascii.eqb x "X")
            then radix_positive is_hex_digit r'
            else if Ascii.eqb c "0" && (Ascii.eqb x "o" || Ascii.eqb x "O")
            then radix_positive is_oct_digit r'
            else if Ascii.eqb c "0" && (Ascii.eqb x "b" || Ascii.eqb x "B")
            then radix_positive is_bin_digit r'
            else unsigned_decimal_positive (String c r)
        | EmptyString => unsigned_decimal_positive (String c r)
        end
  end.

(** [v > 0], [>] converting [v] with [ToNumber]: an array or object through
    its string form. *)
Definition js_gt_zero (v : json) : bool :=
  match v with
  | JNum n => Z.ltb 0 n
  | JBool b => b
  | JNull => false
  | JStr s => string_number_positive s
  | JArr _ | JObj _ => string_number_positive (js_to_string v)
  end.

(** [x.length > 0] for the value of [message.tool_calls]: the own length of
    an array or a string, the [length] property of an object; a number, a
    boolean or a missing property gives [undefined], and [undefined > 0]
    is false. *)
Definition js_length_positive (v : option json) : bool :=
  match v with
  | Some (JArr xs) => Nat.ltb 0 (List.length xs)
  | Some (JStr s) => Nat.ltb 0 (String.length s)
  | Some (JObj kvs) =>
      match assoc "length" kvs with
      | Some l => js_gt_zero l
      | None => false
      end
  | _ => false
  end.

(** The body of the [forEach] callback for one tool call: [None] when
    reading [toolCall.content] throws (a [null] element). *)
Definition accumulate (acc : list (string * string)) (toolCall : json)
  : option (list (string * string) * json) :=
  match toolCall with
  | JNull => None
  | _ =>
      let content := get toolCall "content" in
      let index := get toolCall "partial_tool_call_index" in
      match content, index with
      | Some c, Some i =>
          if truthy content then
            let key := "tool-" ++ js_to_string i in
            let acc1 :=
              match assoc key acc with
              | Some a => if String.eqb a "" then assoc_set key "" acc else acc
              | None => assoc_set key "" acc
              end in
            let cur := match assoc key acc1 with Some a => a | None => "" end in
            let acc2 := assoc_set key (cur ++ js_to_string c) acc1 in
            let now := match assoc key acc2 with Some a => a | None => "" end in
            Some (acc2, set_prop toolCall "accumulated_content" (JStr now))
          else Some (acc, toolCall)
      | _, _ => Some (acc, toolCall)
      end
  end.

(** [message.tool_calls.forEach(...)]: the ref keeps every update made
    before a throw; the mutated calls are [None] after a throw. *)
Fixpoint accumulate_all (acc : list (string * string)) (calls : list json)
  : list (string * string) * option (list json) :=
  match calls with
  | [] => (acc, Some [])
  | tc :: rest =>
      match accumulate acc tc with
      | None => (acc, None)
      | Some (acc', tc') =>
          let '(acc'', rest') := accumulate_all acc' rest in
          (acc'', option_map (cons tc') rest')
      end
  end.

(** The [if / else if] chain of [handleMessage]; [None] when it throws. *)
Definition dispatch (st : state) (message : json) : state * option json :=
  if type_is message "start" then
    (notify (set_streaming (set_accumulated st []) true)
       (StreamingChange true (currentSessionId st)), Some message)
  else if type_is message "partial" then
    let calls := get message "tool_calls" in
    if truthy calls && js_length_positive calls then
      match calls with
      | Some (JArr xs) =>
          let '(acc, r) := accumulate_all (accumulatedContent st) xs in
          (set_accumulated st acc,
           option_map (fun xs' => set_prop message "tool_calls" (JArr xs')) r)
      | _ => (st, None)
      end
    else (st, Some message)
  else if type_is message "response"
          && truthy (get_opt (get message "message") "usage") then
    let usage := get_opt (get message "message") "usage" in
    let totalTokens :=
      js_plus (js_or (get_opt usage "input_tokens") (JNum 0))
              (js_or (get_opt usage "output_tokens") (JNum 0)) in
    (notify st (TokenUpdate totalTokens), Some message)
  else if type_is message "error" || type_is message "response" then
    (notify (set_streaming st false) (StreamingChange false (currentSessionId st)),
     Some message)
  else if type_is message "output" then (st, Some message)
  else (st, Some message).

Definition handleMessage (st : state) (message : json) : state * outcome :=
  match message with
  | JNull => (st, Threw "Cannot read properties of null (reading 'type')")
  | _ =>
      match dispatch st message with
      | (st1, None) =>
          (st1, Threw "Cannot read properties of null (reading 'content')")
      | (st1, Some m) =>
          let st2 := set_logs st1 (app (messages st1) [m])
                       (app (rawJsonlOutput st1) [stringify m]) in
          if type_is m "session_info" && truthy (get m "session_id")
             && truthy (get m "project_id") then
            match get m "session_id", get m "project_id" with
            | Some sid, Some pid =>
                (set_session (notify st2 (SessionInfo sid pid)) (Some sid),
                 Returned)
            | _, _ => (st2, Returned)
            end
          else (st2, Returned)
      end
  end.

Definition clearMessages (st : state) : state :=
  set_accumulated (set_logs st [] []) [].

Section Transport.

(** [JSON.parse]: [None] when it throws. *)
Variable parse : string -> option json.

(** The ["claude-stream"] listener of the Tauri branch. *)
Definition on_claude_stream (st : state) (payload : string) : state :=
  match parse payload with
  | None => log st "[TRACE] Failed to parse Claude stream message:"
  | Some message =>
      match handleMessage st message with
      | (st', Returned) => st'
      | (st', Threw _) => log st' "[TRACE] Failed to parse Claude stream message:"
      end
  end.

Fixpoint ingest_all (st : state) (payloads : list string) : state :=
  match payloads with
  | [] => st
  | p :: rest => ingest_all (on_claude_stream st p) rest
  end.

(** [s.split('\n')] *)
Fixpoint split_nl (s : string) : list string :=
  match s with
  | EmptyString => [""]
  | String c r =>
      if Nat.eqb (code c) 10 then "" :: split_nl r
      else match split_nl r with
           | [] => [String c ""]
           | x :: xs => String c x :: xs
           end
  end.

(** The [lines.forEach] loop: loaded messages, their raw lines, and the
    [console.error] lines of the lines that do not parse. *)
Fixpoint load_lines (lines : list string)
  : list json * list string * list string :=
  match lines with
  | [] => ([], [], [])
  | line :: rest =>
      let '(ms, raws, errs) := load_lines rest in
      match parse line with
      | Some msg => (msg :: ms, line :: raws, errs)
      | None => (ms, raws, "Failed to parse JSONL:" :: errs)
      end
  end.

(** [loadMessages]: [fetched] is what [api.getSessionOutput] resolves to,
    [None] when it rejects. *)
Definition loadMessages (st : state) (fetched : option string)
  : state * outcome :=
  match fetched with
  | None => (log st "Failed to load session outputs:", Threw "getSessionOutput")
  | Some output =>
      let outputs := [output] in
      let '(ms, raws, errs) :=
        fold_left
          (fun '(ms, raws, errs) jsonl =>
             if truthy (Some (JStr jsonl)) then
               let lines :=
                 filter (fun line => truthy (Some (JStr (trim line))))
                   (split_nl jsonl) in
               let '(ms', raws', errs') := load_lines lines in
               (app ms ms', app raws raws', app errs errs')
             else (ms, raws, errs))
          outputs ([], [], []) in
      (set_logs (mkState (messages st) (rawJsonlOutput st) (isStreaming st)
                   (currentSessionId st) (accumulatedContent st)
                   (notified st) (app (console st) errs)) ms raws,
       Returned)
  end.

End Transport.

End Stream.

(** ** Tab routing: the session handlers of [TabContent] *)
Module Tabs.

(** The fields of an API [Session] the handlers read. *)
Record session : Type := mkSession {
  sess_id : string;
  project_path : string
}.

Record tab : Type := mkTab {
  id : string;
  tab_type : string;
  title : string;
  sessionId : option string;
  sessionData : option session;
  initialProjectPath : option string
}.

Record registry : Type := mkRegistry {
  tabs : list tab;
  activeTabId : option string;
  next_id : nat
}.

(** Modelled from the spec: [findTabBySessionId] of [useTabState] (not in
    the sources), a linear lookup of the first tab bound to the session. *)
Definition findTabBySessionId (reg : registry) (sid : string) : option tab :=
  find (fun t => match sessionId t with
                 | Some s => String.eqb s sid
                 | None => false
                 end) (tabs reg).

(** Modelled from the spec: [updateTab] of [useTabState] merges fields
    into the addressed tab and does nothing when no tab has that id. *)
Definition updateTab (reg : registry) (tid : string) (merge : tab -> tab)
  : registry :=
  mkRegistry
    (map (fun t => if String.eqb (id t) tid then merge t else t) (tabs reg))
    (activeTabId reg) (next_id reg).

(** Modelled from the spec: [switchTo], run by the ["switch-to-tab"]
    listener, sets the active tab. *)
Definition switchTo (reg : registry) (tid : string) : registry :=
  mkRegistry (tabs reg) (Some tid) (next_id reg).

(** Modelled from the spec: [createChatTab] of [useTabState] appends a new
    [chat] tab under a fresh id and makes it active. *)
Definition fresh_id (reg : registry) : string :=
  "tab-" ++ Json.Z_to_string (Z.of_nat (next_id reg)).

Definition createChatTab (reg : registry) (sid : string) (title : string)
    (projectPath : string) : registry * string :=
  let tid := fresh_id reg in
  (mkRegistry
     (app (tabs reg)
        [mkTab tid "chat" title (Some sid) None (Some projectPath)])
     (Some tid) (S (next_id reg)),
   tid).

(** [path.split('/').pop() || 'Session'] *)
Fixpoint last_segment (s : string) (cur : string) : string :=
  match s with
  | EmptyString => cur
  | String c r =>
      if Nat.eqb (Json.code c) 47 then last_segment r ""
      else last_segment r (cur ++ String c "")
  end.

Definition projectName (sess : session) : string :=
  let seg := last_segment (project_path sess) "" in
  if String.eqb seg "" then "Session" else seg.

Definition with_display (sess : session) (t : tab) : tab :=
  mkTab (id t) (tab_type t) (projectName sess) (sessionId t) (Some sess)
    (initialProjectPath t).

Definition with_payload (sess : session) (t : tab) : tab :=
  mkTab (id t) (tab_type t) (title t) (sessionId t) (Some sess)
    (Some (project_path sess)).

Definition as_chat (sess : session) (t : tab) : tab :=
  mkTab (id t) "chat" (projectName sess) (Some (sess_id sess)) (Some sess)
    (Some (project_path sess)).

Definition handleOpenSessionInTab (reg : registry) (sess : session)
  : registry :=
  match findTabBySessionId reg (sess_id sess) with
  | Some existing =>
      switchTo (updateTab reg (id existing) (with_display sess)) (id existing)
  | None =>
      let '(reg1, newTabId) :=
        createChatTab reg (sess_id sess) (projectName sess) (project_path sess) in
      updateTab reg1 newTabId (with_payload sess)
  end.

Definition handleClaudeSessionSelected (reg : registry) (sess : session)
  : registry :=
  match findTabBySessionId reg (sess_id sess) with
  | Some existing =>
      switchTo (updateTab reg (id existing) (with_display sess)) (id existing)
  | None =>
      let currentTab :=
        find (fun t => match activeTabId reg with
                       | Some a => String.eqb (id t) a
                       | None => false
                       end) (tabs reg) in
      match currentTab with
      | Some cur =>
          if String.eqb (tab_type cur) "projects" then
            updateTab reg (id cur) (as_chat sess)
          else
            let '(reg1, newTabId) :=
              createChatTab reg (sess_id sess) (projectName sess)
                (project_path sess) in
            updateTab reg1 newTabId (with_payload sess)
      | None =>
          let '(reg1, newTabId) :=
            createChatTab reg (sess_id sess) (projectName sess)
              (project_path sess) in
          updateTab reg1 newTabId (with_payload sess)
      end
  end.

(** The two bus events that open a session. *)
Inductive session_event : Type :=
| OpenSessionInTab (sess : session)
| ClaudeSessionSelected (sess : session).

Definition event_session (ev : session_event) : session :=
  match ev with
  | OpenSessionInTab s | ClaudeSessionSelected s => s
  end.

Definition route (reg : registry) (ev : session_event) : registry :=
  match ev with
  | OpenSessionInTab s => handleOpenSessionInTab reg s
  | ClaudeSessionSelected s => handleClaudeSessionSelected reg s
  end.

(** The non-null session ids bound to tabs, in tab order. *)
Definition bound_sessions (reg : registry) : list string :=
  flat_map (fun t => match sessionId t with Some s => [s] | None => [] end)
    (tabs reg).

End Tabs.

(** ** Persisted MCP server tools: [MCPServerList] *)
Module McpTools.
Import Json.

(** [serverTools], the value of the [mcp_server_tools] key, the
    [localStorage.setItem] calls on it, and [console.error] lines. *)
Record mcp_state : Type := mkMcp {
  serverTools : json;
  stored : option string;
  writes : list string;
  errors : list string
}.

(** Own enumerable properties copied by an object spread. *)
Fixpoint indexed {A} (n : nat) (xs : list A) : list (string * A) :=
  match xs with
  | [] => []
  | x :: r => (Z_to_string (Z.of_nat n), x) :: indexed (S n) r
  end.

Fixpoint chars (s : string) : list json :=
  match s with
  | EmptyString => []
  | String c r => JStr (String c "") :: chars r
  end.

Definition spread (v : json) : list (string * json) :=
  match v with
  | JObj kvs => kvs
  | JArr xs => indexed 0 xs
  | JStr s => indexed 0 (chars s)
  | _ => []
  end.

Definition setItem (st : mcp_state) (v : string) : mcp_state :=
  mkMcp (serverTools st) (Some v) (app (writes st) [v]) (errors st).

Definition set_tools (st : mcp_state) (v : json) : mcp_state :=
  mkMcp v (stored st) (writes st) (errors st).

Definition error (st : mcp_state) (line : string) : mcp_state :=
  mkMcp (serverTools st) (stored st) (writes st) (app (errors st) [line]).

(** The tools a server reports: [details.status?.running ? [...] : []]. *)
Definition tools_of (details : json) : json :=
  if truthy (get_opt (get details "status") "running")
  then JArr [JStr "fetch"; JStr "list"] else JArr [].

Section WithParse.

Variable parse : string -> option json.

(** The mount effect: [serverTools] starts as [{}]. *)
Definition mount (saved : option string) : mcp_state :=
  let st := mkMcp (JObj []) saved [] [] in
  match saved with
  | Some savedTools =>
      if truthy (Some (JStr savedTools)) then
        match parse savedTools with
        | Some parsed => set_tools st parsed
        | None => error st "Failed to parse saved server tools:"
        end
      else st
  | None => st
  end.

(** [handleTestConnection name]: [details] is what [api.mcpGet(name)]
    resolves to, [None] when it rejects; reading [details.status] on
    [null] throws into the same [catch]. *)
Definition handleTestConnection (st : mcp_state) (name : string)
    (details : option json) : mcp_state :=
  match details with
  | Some d =>
      match d with
      | JNull => error st "Failed to get server details:"
      | _ =>
          let newTools := JObj (assoc_set name (tools_of d) (spread (serverTools st))) in
          setItem (set_tools st newTools) (stringify newTools)
      end
  | None => error st "Failed to get server details:"
  end.

(** [handleRefreshAllStatuses]: one [api.mcpGet] result per server; a
    failed lookup stores [[]] and logs. *)
Fixpoint refresh_loop (st : mcp_state) (acc : list (string * json))
    (results : list (string * option json)) : mcp_state * list (string * json) :=
  match results with
  | [] => (st, acc)
  | (name, r) :: rest =>
      match r with
      | Some d =>
          match d with
          | JNull => refresh_loop (error st "Failed to get status for server:")
                       (assoc_set name (JArr []) acc) rest
          | _ => refresh_loop st (assoc_set name (tools_of d) acc) rest
          end
      | None => refresh_loop (error st "Failed to get status for server:")
                  (assoc_set name (JArr []) acc) rest
      end
  end.

Definition handleRefreshAllStatuses (st : mcp_state)
    (results : list (string * option json)) : mcp_state :=
  let '(st1, acc) := refresh_loop st [] results in
  let newTools := JObj acc in
  setItem (set_tools st1 newTools) (stringify newTools).

End WithParse.

End McpTools.

(** ** Vocabulary of the properties below *)
Module Facts.
Import Json Stream.


(** A token count as the usage object may carry it: a number, or missing
    ([undefined] or [null]). *)
Definition count (v : option json) : option Z :=
  match v with
  | None | Some JNull => Some 0%Z
  | Some (JNum n) => Some n
  | _ => None
  end.

(** The state the processor exposes, all but the diagnostics. *)
Definition observable (st : state) :=
  (messages st, rawJsonlOutput st, isStreaming st, currentSessionId st,
   accumulatedContent st, notified st).

(** The non-blank lines of a stored blob, and what parses among them. *)
Definition nonblank_lines (blob : string) : list string :=
  filter (fun line => truthy (Some (JStr (trim line)))) (split_nl blob).

Definition parsed_lines (parse : string -> option json) (lines : list string)
  : list json :=
  flat_map (fun l => match parse l with Some m => [m] | None => [] end) lines.

Definition parsable_lines (parse : string -> option json) (lines : list string)
  : list string :=
  filter (fun l => match parse l with Some _ => true | None => false end) lines.

(** Lines joined with the newline character. *)
Fixpoint unlines (ls : list string) : string :=
  match ls with
  | [] => ""
  | [l] => l
  | l :: r => l ++ String (ascii_of_nat 10) (unlines r)
  end.









(** What [loadMessages] loads from a blob: messages and raw lines. *)
Definition loaded (parse : string -> option json) (blob : string)
  : list json * list string :=
  if truthy (Some (JStr blob)) then
    let '(ms, raws, _) := load_lines parse (nonblank_lines blob) in (ms, raws)
  else ([], []).

Definition start_msg : json := JObj [("type", JStr "start")].

End Facts.

(** ** Window controls: [detectOS] and [osToWindowControlStyle] of
    src/src/lib/osDetector.ts, and the style loading and rendering choice
    of [WindowControls] in src/unnamed/part_001 *)
Module Window.
Import Json.

Inductive OSType : Type := OS_windows | OS_macos | OS_linux | OS_unknown.

Inductive WindowControlStyle : Type := Style_macos | Style_windows | Style_linux.

(** [toLowerCase] over ASCII text. *)
Definition lower_char (c : ascii) : ascii :=
  let n := nat_of_ascii c in
  if Nat.leb 65 n && Nat.leb n 90 then ascii_of_nat (n + 32) else c.

Fixpoint toLowerCase (s : string) : string :=
  match s with
  | EmptyString => EmptyString
  | String c r => String (lower_char c) (toLowerCase r)
  end.

(** [s.includes(sub)] *)
Fixpoint includes (s sub : string) : bool :=
  String.prefix sub s ||
  match s with
  | EmptyString => false
  | String _ r => includes r sub
  end.

(** The two [navigator] properties [detectOS] reads; [None] when undefined. *)
Record navigator : Type := mkNavigator {
  nav_platform : option string;
  nav_userAgent : option string
}.

(** [detectOS]: [env] is [None] when [window] or [navigator] is undefined. *)
Definition detectOS (env : option navigator) : OSType :=
  match env with
  | None => OS_unknown
  | Some nav =>
      let platform :=
        match nav_platform nav with Some p => toLowerCase p | None => "" end in
      let userAgent :=
        match nav_userAgent nav with Some u => toLowerCase u | None => "" end in
      if includes platform "win" || includes userAgent "windows"
         || includes userAgent "win32" || includes userAgent "win64"
      then OS_windows
      else if includes platform "mac" || includes userAgent "mac os x"
              || includes userAgent "macintosh"
      then OS_macos
      else if includes platform "linux" || includes userAgent "linux"
              || (negb (includes platform "win") && negb (includes platform "mac"))
      then OS_linux
      else OS_unknown
  end.

Definition osToWindowControlStyle (os : OSType) : WindowControlStyle :=
  match os with
  | OS_macos => Style_macos
  | OS_windows => Style_windows
  | OS_linux => Style_linux
  | _ => Style_macos
  end.

(** [['macos', 'windows', 'linux'].includes(savedStyle)], with the style it
    names. *)
Definition style_of (s : string) : option WindowControlStyle :=
  if String.eqb s "macos" then Some Style_macos
  else if String.eqb s "windows" then Some Style_windows
  else if String.eqb s "linux" then Some Style_linux
  else None.

(** [loadStyle]: [savedStyle] is what [api.getSetting] resolves to, [None]
    when it rejects and [Some None] for [null]; the result is the style set
    and the [console.error] lines. *)
Definition loadStyle (savedStyle : option (option string))
    (style : option WindowControlStyle) (defaultStyle : WindowControlStyle)
  : WindowControlStyle * list string :=
  match savedStyle with
  | None => (defaultStyle, ["Failed to load window control style:"])
  | Some saved =>
      match match saved with Some s => style_of s | None => None end with
      | Some st => (st, [])
      | None =>
          match style with
          | Some st => (st, [])
          | None => (defaultStyle, [])
          end
      end
  end.

(** The state of one [WindowControls] instance that decides what it shows. *)
Record controls : Type := mkControls {
  controlStyle : WindowControlStyle;
  isLoading : bool;
  control_errors : list string
}.

(** The first render: [useState(style || defaultStyle)], [isLoading] true. *)
Definition mountControls (style : option WindowControlStyle)
    (defaultStyle : WindowControlStyle) : controls :=
  mkControls (match style with Some s => s | None => defaultStyle end) true [].

(** After [loadStyle] has run, its [finally] clearing [isLoading]. *)
Definition afterLoad (c : controls) (savedStyle : option (option string))
    (style : option WindowControlStyle) (defaultStyle : WindowControlStyle)
  : controls :=
  let '(s, errs) := loadStyle savedStyle style defaultStyle in
  mkControls s false (app (control_errors c) errs).

Inductive position : Type := Left | Right.

Definition is_macos (s : WindowControlStyle) : bool :=
  match s with Style_macos => true | _ => false end.
Definition is_windows (s : WindowControlStyle) : bool :=
  match s with Style_windows => true | _ => false end.
Definition is_linux (s : WindowControlStyle) : bool :=
  match s with Style_linux => true | _ => false end.
Definition is_left (p : position) : bool :=
  match p with Left => true | Right => false end.
Definition is_right (p : position) : bool :=
  match p with Right => true | Left => false end.

Definition shouldRender (c : controls) (position : position) : bool :=
  if isLoading c then false
  else (is_macos (controlStyle c) && is_left position)
       || ((is_windows (controlStyle c) || is_linux (controlStyle c))
           && is_right position).

End Window.

(** ** Session list pagination and tab titles: [SessionList] in
    src/unnamed/part_001 and the [TabPanel] callbacks of
    src/src/components/TabContent.tsx *)
Module Sessions.
Local Open Scope Z_scope.

Definition ITEMS_PER_PAGE : Z := 20.

(** [Math.ceil(sessions.length / ITEMS_PER_PAGE)] *)
Definition totalPages (len : nat) : Z :=
  (Z.of_nat len + ITEMS_PER_PAGE - 1) / ITEMS_PER_PAGE.

(** A [slice] bound: negative counts from the end, clamped to the length. *)
Definition rel_index (i len : Z) : Z :=
  if Z.ltb i 0 then Z.max (len + i) 0 else Z.min i len.

(** [xs.slice(start, end)] *)
Definition slice {A} (xs : list A) (start end_ : Z) : list A :=
  let len := Z.of_nat (List.length xs) in
  let s := rel_index start len in
  let e := rel_index end_ len in
  firstn (Z.to_nat (e - s)) (skipn (Z.to_nat s) xs).

Definition currentSessions {A} (sessions : list A) (currentPage : Z) : list A :=
  let startIndex := (currentPage - 1) * ITEMS_PER_PAGE in
  let endIndex := startIndex + ITEMS_PER_PAGE in
  slice sessions startIndex endIndex.

(** The pages [1 .. totalPages] the pagination offers. *)
Definition page_numbers (len : nat) : list Z :=
  map (fun k => Z.of_nat k) (seq 1%nat (Z.to_nat (totalPages len))).

(** [s.split(sep).pop()] *)
Fixpoint pop_split (sep : ascii) (s cur : string) : string :=
  match s with
  | EmptyString => cur
  | String c r =>
      if Ascii.eqb c sep then pop_split sep r ""
      else pop_split sep r (cur ++ String c "")
  end.

(** The title [onProjectPathChange] and [onSessionCreated] give a tab:
    [path.split('/').pop() || path.split('\\').pop() || 'Session']. *)
Definition dirName (path : string) : string :=
  let a := pop_split "/"%char path "" in
  if negb (String.eqb a "") then a
  else
    let b := pop_split (ascii_of_nat 92) path "" in
    if negb (String.eqb b "") then b else "Session".

(** [s] contains the character [c]. *)
Fixpoint has_char (c : ascii) (s : string) : bool :=
  match s with
  | EmptyString => false
  | String c' r => Ascii.eqb c' c || has_char c r
  end.

End Sessions.

(** ** Server grouping and expansion in [MCPServerList] *)
Module McpList.
Import Json.

(** The fields of an [MCPServer] the grouping reads. *)
Record MCPServer : Type := mkServer {
  server_name : string;
  server_scope : option string
}.

(** The properties an empty object literal inherits from
    [Object.prototype]: reading one of them gives a truthy value. *)
Definition object_prototype_members : list string :=
  ["constructor"; "__defineGetter__"; "__defineSetter__"; "hasOwnProperty";
   "__lookupGetter__"; "__lookupSetter__"; "isPrototypeOf";
   "propertyIsEnumerable"; "toString"; "valueOf"; "__proto__";
   "toLocaleString"].

(** [server.scope || "local"] *)
Definition scope_of (server : MCPServer) : string :=
  match server_scope server with
  | Some s => if String.eqb s "" then "local" else s
  | None => "local"
  end.

(** The [reduce] callback; [None] once [acc[scope].push] has thrown (an
    inherited member is truthy and has no [push]). *)
Definition group_step (acc : option (list (string * list MCPServer)))
    (server : MCPServer) : option (list (string * list MCPServer)) :=
  match acc with
  | None => None
  | Some acc =>
      let scope := scope_of server in
      match assoc scope acc with
      | Some xs => Some (assoc_set scope (app xs [server]) acc)
      | None =>
          if existsb (String.eqb scope) object_prototype_members then None
          else Some (assoc_set scope [server] (assoc_set scope [] acc))
      end
  end.

Definition serversByScope (servers : list MCPServer)
  : option (list (string * list MCPServer)) :=
  fold_left group_step servers (Some []).

(** [Set.prototype.delete] on a duplicate-free list in insertion order. *)
Fixpoint set_delete (x : string) (s : list string) : list string :=
  match s with
  | [] => []
  | y :: r => if String.eqb y x then r else y :: set_delete x r
  end.

(** The servers of a group, [[]] for a scope without one. *)
Definition group (k : string) (g : list (string * list MCPServer))
  : list MCPServer :=
  match assoc k g with Some xs => xs | None => [] end.

(** No inherited member is an own key of the accumulator. *)
Definition no_proto_keys (acc : list (string * list MCPServer)) : Prop :=
  forall k, In k object_prototype_members -> assoc k acc = None.

Definition toggleExpanded (prev : list string) (serverName : string)
  : list string :=
  let next := prev in
  if existsb (String.eqb serverName) next then set_delete serverName next
  else app next [serverName].

End McpList.

(** The tab [activeTabId] names, found as [handleClaudeSessionSelected]
    finds it. *)
Module TabViews.
Import Tabs.

Definition active_tab (reg : registry) : option tab :=
  find (fun t => match activeTabId reg with
                 | Some a => String.eqb (id t) a
                 | None => false
                 end) (tabs reg).

End TabViews.

(** * Properties *)
Module Proofs.
Import Json Stream Facts.

Lemma type_is_other m a b :
  type_is m a = true -> type_is m b = String.eqb a b.
Proof.
  unfold type_is. destruct (get m "type") as [[]|]; try discriminate.
  intros H. apply String.eqb_eq in H. subst. reflexivity.
Qed.

Lemma type_is_not_null m a : type_is m a = true -> m <> JNull.
Proof. intros H ->. discriminate. Qed.

Lemma handleMessage_eq st m :
  m <> JNull ->
  handleMessage st m =
  match dispatch st m with
  | (st1, None) => (st1, Threw "Cannot read properties of null (reading 'content')")
  | (st1, Some m') =>
      let st2 := set_logs st1 (app (messages st1) [m'])
                   (app (rawJsonlOutput st1) [stringify m']) in
      if type_is m' "session_info" && truthy (get m' "session_id")
         && truthy (get m' "project_id") then
        match get m' "session_id", get m' "project_id" with
        | Some sid, Some pid =>
            (set_session (notify st2 (SessionInfo sid pid)) (Some sid), Returned)
        | _, _ => (st2, Returned)
        end
      else (st2, Returned)
  end.
Proof. destruct m; try reflexivity. intros []; reflexivity. Qed.

Ltac types H :=
  repeat (rewrite (type_is_other _ _ _ H); simpl String.eqb; cbv iota).

(** C9: [clearMessages] empties the message log, the raw-line log and the
    accumulation buffer and leaves every other field as it was, the
    streaming flag and the current session id included. *)
Theorem clearMessages_frame (st : state) :
  clearMessages st =
  mkState [] [] (isStreaming st) (currentSessionId st) []
    (notified st) (console st).
Proof. destruct st; reflexivity. Qed.

(** C10: a [session_info] message is always appended; it notifies
    [onSessionInfo] and sets the current session id exactly when its
    [session_id] and [project_id] are both truthy. *)
Theorem session_info_identity (st : state) (m : json) :
  type_is m "session_info" = true ->
  let '(st', r) := handleMessage st m in
  r = Returned /\
  messages st' = app (messages st) [m] /\
  rawJsonlOutput st' = app (rawJsonlOutput st) [stringify m] /\
  isStreaming st' = isStreaming st /\
  accumulatedContent st' = accumulatedContent st /\
  (if truthy (get m "session_id") && truthy (get m "project_id") then
     exists sid pid, get m "session_id" = Some sid /\
       get m "project_id" = Some pid /\
       notified st' = app (notified st) [SessionInfo sid pid] /\
       currentSessionId st' = Some sid
   else notified st' = notified st /\
        currentSessionId st' = currentSessionId st).
Proof.
  intros H. rewrite handleMessage_eq by (eapply type_is_not_null; eauto).
  unfold dispatch. types H. simpl. rewrite H.
  destruct (truthy (get m "session_id")) eqn:Hs;
  destruct (truthy (get m "project_id")) eqn:Hp; simpl;
  try (repeat split; reflexivity).
  destruct (get m "session_id") as [sid|] eqn:Es; [|discriminate].
  destruct (get m "project_id") as [pid|] eqn:Ep; [|discriminate].
  repeat split; try reflexivity. exists sid, pid. repeat split; reflexivity.
Qed.

Lemma js_or_count v a : count v = Some a -> js_or v (JNum 0) = JNum a.
Proof.
  destruct v as [[]|]; simpl; intros H; inversion H; subst; try reflexivity.
  unfold js_or; simpl. destruct (Z.eqb a 0) eqn:E; simpl; [|reflexivity].
  apply Z.eqb_eq in E; subst; reflexivity.
Qed.

(** C7: a [response] whose usage is present notifies [onTokenUpdate]
    exactly once, with the sum of its input and output token counts, a
    missing count counting as 0. *)
Theorem response_usage_token_update (st : state) (m usage : json) (a b : Z) :
  type_is m "response" = true ->
  get_opt (get m "message") "usage" = Some usage ->
  truthy (Some usage) = true ->
  count (get_opt (Some usage) "input_tokens") = Some a ->
  count (get_opt (Some usage) "output_tokens") = Some b ->
  notified (fst (handleMessage st m)) =
  app (notified st) [TokenUpdate (JNum (a + b))].
Proof.
  intros Ht Hu Htr Ha Hb.
  rewrite handleMessage_eq by (eapply type_is_not_null; eauto).
  unfold dispatch. types Ht. rewrite Hu, Htr. cbn -[get_opt js_or].
  rewrite (js_or_count _ _ Ha), (js_or_count _ _ Hb). simpl.
  types Ht. reflexivity.
Qed.

Definition usage_10_5 : json :=
  JObj [("type", JStr "response");
        ("message", JObj [("usage", JObj [("input_tokens", JNum 10);
                                           ("output_tokens", JNum 5)])])].

Lemma response_usage_token_update_witness :
  notified (fst (handleMessage initial usage_10_5)) = [TokenUpdate (JNum 15)].
Proof.
  apply (response_usage_token_update initial usage_10_5
           (JObj [("input_tokens", JNum 10); ("output_tokens", JNum 5)]) 10 5);
    reflexivity.
Defined.

(** C1 (the spec example): after [start] and then a [response] carrying
    usage, the streaming flag is still [true] and [onStreamingChange] was
    only called with [true]: the usage branch of the [else if] chain is
    taken and the branch that ends streaming is never reached. *)
Theorem response_with_usage_keeps_streaming :
  let st := ingest_all Json.parse initial
              [dq "{'type':'start'}";
               dq "{'type':'response','message':{'usage':{'input_tokens':10,'output_tokens':5}}}"] in
  isStreaming st = true /\
  notified st = [StreamingChange true None; TokenUpdate (JNum 15)].
Proof. vm_compute. split; reflexivity. Qed.

Lemma loadMessages_logs parse st blob :
  messages (fst (loadMessages parse st (Some blob))) = fst (loaded parse blob) /\
  rawJsonlOutput (fst (loadMessages parse st (Some blob))) = snd (loaded parse blob).
Proof.
  unfold loadMessages, loaded, nonblank_lines. cbn -[load_lines].
  destruct (String.eqb blob ""); cbn -[load_lines].
  all: try (match goal with |- context [load_lines ?p ?l] =>
              destruct (load_lines p l) as [[ms raws] errs] end).
  all: split; reflexivity.
Qed.

(** C5: [loadMessages] with the same stored blob gives the same message log
    and raw-line log whatever the logs held before, so a second call
    leaves the logs of the first as they are. *)
Theorem loadMessages_idempotent (parse : string -> option json)
    (st : state) (blob : string) :
  let st1 := fst (loadMessages parse st (Some blob)) in
  let st2 := fst (loadMessages parse st1 (Some blob)) in
  messages st2 = messages st1 /\ rawJsonlOutput st2 = rawJsonlOutput st1 /\
  (forall st', messages (fst (loadMessages parse st' (Some blob))) = messages st1 /\
               rawJsonlOutput (fst (loadMessages parse st' (Some blob))) =
               rawJsonlOutput st1).
Proof.
  cbv zeta. rewrite !(proj1 (loadMessages_logs _ _ _)), !(proj2 (loadMessages_logs _ _ _)).
  repeat split; intros; rewrite ?(proj1 (loadMessages_logs _ _ _)),
    ?(proj2 (loadMessages_logs _ _ _)); reflexivity.
Qed.

Definition set_console (st : state) (c : list string) : state :=
  mkState (messages st) (rawJsonlOutput st) (isStreaming st)
    (currentSessionId st) (accumulatedContent st) (notified st) c.

Lemma log_console st l : log st l = set_console st (app (console st) [l]).
Proof. destruct st; reflexivity. Qed.

Ltac case_ifs :=
  repeat match goal with
         | |- context [if ?b then _ else _] => destruct b
         | |- context [match ?x with Some _ => _ | None => _ end] => destruct x
         end.

Lemma dispatch_console st c m :
  dispatch (set_console st c) m =
  (set_console (fst (dispatch st m)) c, snd (dispatch st m)).
Proof.
  destruct st; unfold dispatch; cbn.
  destruct (type_is m "start"); [reflexivity|].
  destruct (type_is m "partial").
  - destruct (truthy (get m "tool_calls") && js_length_positive (get m "tool_calls"));
      [|reflexivity].
    destruct (get m "tool_calls") as [[]|]; try reflexivity.
    destruct (accumulate_all _ _); reflexivity.
  - case_ifs; reflexivity.
Qed.

Lemma handleMessage_console st c m :
  handleMessage (set_console st c) m =
  (set_console (fst (handleMessage st m)) c, snd (handleMessage st m)).
Proof.
  destruct m as [| | | | |kvs]; try reflexivity;
  rewrite !handleMessage_eq by discriminate; rewrite dispatch_console;
  destruct (dispatch st _) as [st1 [m'|]]; cbn; try reflexivity;
  case_ifs; reflexivity.
Qed.

Lemma on_claude_stream_console parse st c p :
  observable (on_claude_stream parse (set_console st c) p) =
  observable (on_claude_stream parse st p).
Proof.
  unfold on_claude_stream. destruct (parse p) as [m|]; [|reflexivity].
  rewrite handleMessage_console.
  destruct (handleMessage st m) as [st' []]; reflexivity.
Qed.

Lemma ingest_all_console parse rest : forall st c,
  observable (ingest_all parse (set_console st c) rest) =
  observable (ingest_all parse st rest).
Proof.
  induction rest as [|p rest IH]; intros st c; [reflexivity|]. simpl.
  unfold on_claude_stream. destruct (parse p) as [m|]; simpl.
  - rewrite handleMessage_console.
    destruct (handleMessage st m) as [st' o]; destruct o; simpl.
    + apply IH.
    + rewrite !log_console, !IH. reflexivity.
  - rewrite !log_console, !IH. reflexivity.
Qed.

Lemma load_lines_spec parse ls :
  fst (fst (load_lines parse ls)) = parsed_lines parse ls /\
  snd (fst (load_lines parse ls)) = parsable_lines parse ls.
Proof.
  induction ls as [|l ls [IH1 IH2]]; [split; reflexivity|]. simpl.
  destruct (load_lines parse ls) as [[ms raws] errs]. simpl in *.
  destruct (parse l); simpl; rewrite IH1, IH2; split; reflexivity.
Qed.

(** C6: a payload [JSON.parse] refuses is logged and dropped, the
    processor state is as it was, and the payloads after it are handled
    as if it had never come; [loadMessages] loads exactly the non-blank
    lines of the blob that parse, in order, skipping the others. *)
Theorem malformed_payload_skipped (parse : string -> option json)
    (st : state) (p : string) (blob : string) :
  parse p = None ->
  observable (on_claude_stream parse st p) = observable st /\
  console (on_claude_stream parse st p) =
    app (console st) ["[TRACE] Failed to parse Claude stream message:"] /\
  (forall rest, observable (ingest_all parse st (p :: rest)) =
                observable (ingest_all parse st rest)) /\
  messages (fst (loadMessages parse st (Some blob))) =
    parsed_lines parse (nonblank_lines blob) /\
  rawJsonlOutput (fst (loadMessages parse st (Some blob))) =
    parsable_lines parse (nonblank_lines blob).
Proof.
  intros Hp.
  rewrite (proj1 (loadMessages_logs _ _ _)), (proj2 (loadMessages_logs _ _ _)).
  unfold on_claude_stream. rewrite Hp.
  split; [reflexivity|]. split; [reflexivity|]. split.
  - intros rest. simpl. unfold on_claude_stream at 1. rewrite Hp.
    apply (ingest_all_console parse rest st).
  - unfold loaded. destruct (truthy (Some (JStr blob))) eqn:E.
    + destruct (load_lines_spec parse (nonblank_lines blob)) as [H1 H2].
      destruct (load_lines parse (nonblank_lines blob)) as [[ms raws] errs].
      simpl in *. split; assumption.
    + simpl in E. destruct (String.eqb blob "") eqn:Eb; [|discriminate].
      apply String.eqb_eq in Eb. subst. split; reflexivity.
Qed.

Lemma malformed_payload_skipped_witness :
  observable (on_claude_stream Json.parse initial (dq "{'type':")) =
    observable initial /\
  messages (fst (loadMessages Json.parse initial
     (Some (unlines [dq "{'type':'start'}"; "not json"; dq "{'type':'output'}"])))) =
    [JObj [("type", JStr "start")]; JObj [("type", JStr "output")]].
Proof.
  pose proof (malformed_payload_skipped Json.parse initial (dq "{'type':")
     (unlines [dq "{'type':'start'}"; "not json"; dq "{'type':'output'}"])
     ltac:(vm_compute; reflexivity)) as [H1 [_ [_ [H4 _]]]].
  split; [exact H1|]. rewrite H4. vm_compute. reflexivity.
Defined.

Lemma str_app_assoc (a b c : string) : (a ++ b) ++ c = a ++ (b ++ c).
Proof. induction a as [|x a IH]; simpl; [reflexivity|]. rewrite IH. reflexivity. Qed.

Lemma str_app_nil_r (a : string) : a ++ "" = a.
Proof. induction a as [|x a IH]; simpl; [reflexivity|]. rewrite IH. reflexivity. Qed.

Lemma assoc_set_same {A} k (v : A) l : assoc k (assoc_set k v l) = Some v.
Proof.
  induction l as [|[k' w] l IH]; simpl.
  - rewrite String.eqb_refl. reflexivity.
  - destruct (String.eqb k k') eqn:E; simpl.
    + rewrite E. reflexivity.
    + rewrite E. exact IH.
Qed.

Lemma assoc_set_other {A} k k' (v : A) l :
  k <> k' -> assoc k (assoc_set k' v l) = assoc k l.
Proof.
  intros Hne. induction l as [|[k'' w] l IH]; simpl.
  - apply String.eqb_neq in Hne. rewrite Hne. reflexivity.
  - destruct (String.eqb k' k'') eqn:E; simpl.
    + apply String.eqb_eq in E. subst k''.
      apply String.eqb_neq in Hne. rewrite Hne. reflexivity.
    + destruct (String.eqb k k''); [reflexivity|exact IH].
Qed.


Lemma get_set_prop_other o k k' v :
  k <> k' -> get (set_prop o k' v) k = get o k.
Proof. intros Hne. destruct o; try reflexivity. apply assoc_set_other, Hne. Qed.

Lemma type_is_set_prop o k v t :
  k <> "type" -> type_is (set_prop o k v) t = type_is o t.
Proof.
  intros Hne. unfold type_is. rewrite get_set_prop_other; [reflexivity|].
  intros E. apply Hne. symmetry. exact E.
Qed.


Lemma get_some_obj v k w : get v k = Some w -> exists kvs, v = JObj kvs.
Proof. destruct v; try discriminate. eauto. Qed.






Lemma json_eq_null_dec (m : json) : {m = JNull} + {m <> JNull}.
Proof. destruct m; [left; reflexivity|right; discriminate ..]. Defined.










Definition session_info_msg : json :=
  JObj [("type", JStr "session_info"); ("session_id", JStr "s1");
        ("project_id", JStr "p1")].

Lemma session_info_identity_witness :
  currentSessionId (fst (handleMessage initial session_info_msg)) =
    Some (JStr "s1").
Proof.
  pose proof (session_info_identity initial session_info_msg
                ltac:(reflexivity)) as H.
  destruct (handleMessage initial session_info_msg) as [st' r] eqn:E.
  destruct H as (_ & _ & _ & _ & _ & H). simpl in H.
  destruct H as (sid & pid & Hs & _ & _ & Hc). simpl. rewrite Hc.
  injection Hs as <-. reflexivity.
Defined.








End Proofs.

Module TabProofs.
Import Tabs.

Lemma updateTab_ids reg i f :
  (forall t, id (f t) = id t) ->
  map id (tabs (updateTab reg i f)) = map id (tabs reg).
Proof.
  intros Hf. unfold updateTab. simpl. rewrite map_map. apply map_ext.
  intros t. destruct (String.eqb (id t) i); [apply Hf|reflexivity].
Qed.

Lemma updateTab_sessions reg i f :
  (forall t, sessionId (f t) = sessionId t) ->
  map sessionId (tabs (updateTab reg i f)) = map sessionId (tabs reg) /\
  bound_sessions (updateTab reg i f) = bound_sessions reg.
Proof.
  intros Hf. unfold updateTab, bound_sessions. simpl.
  induction (tabs reg) as [|t ts [IH1 IH2]]; [split; reflexivity|]. simpl.
  rewrite IH1, IH2.
  destruct (String.eqb (id t) i); rewrite ?Hf; split; reflexivity.
Qed.

(** C4: when the session of an [open-session-in-tab] or
    [claude-session-selected] event is already bound to a tab, no tab is
    created, no tab's session binding changes (so distinct bindings stay
    distinct), and that tab becomes the active one. *)
Theorem open_bound_session_switches (reg : registry) (ev : session_event)
    (t : tab) :
  findTabBySessionId reg (sess_id (event_session ev)) = Some t ->
  let reg' := route reg ev in
  map id (tabs reg') = map id (tabs reg) /\
  map sessionId (tabs reg') = map sessionId (tabs reg) /\
  (NoDup (bound_sessions reg) -> NoDup (bound_sessions reg')) /\
  activeTabId reg' = Some (id t).
Proof.
  intros H reg'. unfold reg'.
  assert (Hs := updateTab_sessions reg (id t) (with_display (event_session ev))
                  (fun _ => eq_refl)).
  assert (Hi := updateTab_ids reg (id t) (with_display (event_session ev))
                  (fun _ => eq_refl)).
  destruct ev as [s|s]; simpl in *; unfold handleOpenSessionInTab,
    handleClaudeSessionSelected; rewrite H; simpl;
    destruct Hs as [Hs1 Hs2]; unfold bound_sessions in *; simpl in *;
    rewrite ?Hi, ?Hs1, ?Hs2; repeat split; auto.
Qed.

Definition session_tab (tid sid : string) : tab :=
  mkTab tid "chat" sid (Some sid) None None.

Definition two_tabs : registry :=
  mkRegistry [session_tab "t1" "s1"; session_tab "t2" "s2"] (Some "t2") 3.

Lemma open_bound_session_switches_witness :
  activeTabId (route two_tabs (OpenSessionInTab (mkSession "s1" "/home/u/proj")))
    = Some "t1" /\
  List.length (tabs (route two_tabs (OpenSessionInTab (mkSession "s1" "/home/u/proj"))))
    = 2.
Proof.
  destruct (open_bound_session_switches two_tabs
              (OpenSessionInTab (mkSession "s1" "/home/u/proj"))
              (session_tab "t1" "s1") ltac:(vm_compute; reflexivity))
    as (Hi & _ & _ & Ha).
  split; [exact Ha|]. rewrite <- (length_map id), Hi. reflexivity.
Defined.

End TabProofs.

Module McpProofs.
Import Json McpTools.

(** C8 (amended): at mount an absent, empty or unparsable
    [mcp_server_tools] value leaves [serverTools] the empty mapping; an
    absent or empty value logs nothing, and the parse error of an
    unparsable one is caught and logged as one [console.error] line; the key is written with the
    serialised new mapping after each connection test whose [api.mcpGet]
    resolves to server details and after each refresh of all statuses; a
    test whose lookup fails writes nothing. *)
Theorem mcp_tools_persistence (parse : string -> option json) :
  (forall saved, saved = None \/ saved = Some "" ->
     serverTools (mount parse saved) = JObj [] /\ errors (mount parse saved) = []) /\
  (forall s, s <> "" -> parse s = None ->
     serverTools (mount parse (Some s)) = JObj [] /\
     errors (mount parse (Some s)) = ["Failed to parse saved server tools:"]) /\
  (forall st name d, d <> JNull ->
     let st' := handleTestConnection st name (Some d) in
     writes st' = app (writes st) [stringify (serverTools st')] /\
     stored st' = Some (stringify (serverTools st'))) /\
  (forall st results,
     let st' := handleRefreshAllStatuses st results in
     writes st' = app (writes st) [stringify (serverTools st')]) /\
  (forall st name,
     writes (handleTestConnection st name None) = writes st).
Proof.
  split; [|split; [|split; [|split]]].
  - intros saved [->| ->]; split; reflexivity.
  - intros s Hne Hs. unfold mount.
    destruct s as [|c r]; [congruence|]. simpl truthy. rewrite Hs.
    split; reflexivity.
  - intros st name d Hd. destruct d; [congruence|..]; split; reflexivity.
  - intros st results. unfold handleRefreshAllStatuses.
    assert (Hw : forall st0 acc, writes (fst (refresh_loop st0 acc results)) = writes st0).
    { induction results as [|[n [[]|]] rest IH]; intros st0 acc; simpl;
        rewrite ?IH; reflexivity. }
    specialize (Hw st []).
    destruct (refresh_loop st [] results) as [st1 acc]. simpl in *.
    rewrite Hw. reflexivity.
  - reflexivity.
Qed.

Lemma mcp_tools_persistence_witness :
  serverTools (mount Json.parse (Some "{not json")) = JObj [] /\
  errors (mount Json.parse (Some "{not json")) =
    ["Failed to parse saved server tools:"].
Proof.
  apply (proj1 (proj2 (mcp_tools_persistence Json.parse))).
  - discriminate.
  - vm_compute. reflexivity.
Defined.

(** C8 fails as stated: a connection test whose [api.mcpGet] rejects is a
    verification action after which [mcp_server_tools] is not written. *)
Lemma mcp_tools_persistence_counterexample :
  writes (handleTestConnection (mount Json.parse None) "fs" None) = [] /\
  errors (handleTestConnection (mount Json.parse None) "fs" None) =
    ["Failed to get server details:"].
Proof. split; reflexivity. Qed.

End McpProofs.


Module WindowProofs.
Import Window.

(** [detectOS] answers [unknown] exactly when [window] or [navigator] is
    undefined: with a navigator, the last test falls back to [linux]
    whenever the platform names neither [win] nor [mac]. *)
Theorem detectOS_unknown_iff (env : option navigator) :
  detectOS env = OS_unknown <-> env = None.
Proof.
  split; [|intros ->; reflexivity].
  destruct env as [nav|]; [|reflexivity]. unfold detectOS. cbv zeta.
  set (platform := match nav_platform nav with Some p => _ | None => _ end).
  set (userAgent := match nav_userAgent nav with Some u => _ | None => _ end).
  destruct (includes platform "win"), (includes platform "mac"); simpl;
    repeat match goal with |- context [includes ?a ?b] => destruct (includes a b) end;
    simpl; intros H; discriminate H.
Qed.

(** A platform string that contains [win] in any letter case makes
    [detectOS] answer [windows], whatever the user agent says. *)
Theorem detectOS_platform_win (p : string) (ua : option string) :
  includes (toLowerCase p) "win" = true ->
  detectOS (Some (mkNavigator (Some p) ua)) = OS_windows.
Proof. intros H. unfold detectOS. simpl. rewrite H. reflexivity. Qed.

Lemma detectOS_platform_win_witness :
  includes (toLowerCase "Darwin") "win" = true /\
  detectOS (Some (mkNavigator (Some "Darwin")
                    (Some "Mozilla/5.0 (Macintosh; Intel Mac OS X 10_15_7)")))
    = OS_windows.
Proof.
  split; [reflexivity|]. apply detectOS_platform_win. reflexivity.
Defined.

(** The [style] prop outlives loading only when the setting read succeeds
    without a valid saved style; when the read fails, the instance drops the
    prop for the detected default and logs one error. *)
Theorem loadStyle_prop_fallback (s d : WindowControlStyle)
    (saved : option string) :
  match saved with Some v => style_of v | None => None end = None ->
  controlStyle (afterLoad (mountControls (Some s) d) (Some saved) (Some s) d) = s /\
  control_errors (afterLoad (mountControls (Some s) d) (Some saved) (Some s) d) = [] /\
  controlStyle (afterLoad (mountControls (Some s) d) None (Some s) d) = d /\
  control_errors (afterLoad (mountControls (Some s) d) None (Some s) d) =
    ["Failed to load window control style:"].
Proof.
  intros H. unfold afterLoad, loadStyle. rewrite H. repeat split.
Qed.

Lemma loadStyle_prop_fallback_witness :
  controlStyle (afterLoad (mountControls (Some Style_linux) Style_macos)
                  (Some (Some "Windows")) (Some Style_linux) Style_macos)
    = Style_linux.
Proof.
  apply (loadStyle_prop_fallback Style_linux Style_macos (Some "Windows")).
  reflexivity.
Defined.

(** While the setting loads neither a left nor a right [WindowControls]
    instance renders; once it has loaded, exactly one of the two does, for
    every outcome of the read, every [style] prop and every default. *)
Theorem controls_render_once (style : option WindowControlStyle)
    (d : WindowControlStyle) (saved : option (option string)) :
  let c0 := mountControls style d in
  let c1 := afterLoad c0 saved style d in
  shouldRender c0 Left = false /\ shouldRender c0 Right = false /\
  shouldRender c1 Left = negb (shouldRender c1 Right).
Proof.
  cbv zeta. repeat split.
  unfold shouldRender, afterLoad.
  destruct (loadStyle saved style d) as [[] errs]; reflexivity.
Qed.

End WindowProofs.

Module SessionProofs.
Import Sessions.
Local Open Scope Z_scope.

Lemma slice_nonneg {A} (xs : list A) (s e : Z) :
  0 <= s <= e ->
  slice xs s e = firstn (Z.to_nat (e - s)) (skipn (Z.to_nat s) xs).
Proof.
  intros H. unfold slice, rel_index.
  destruct (Z.ltb_spec s 0); [lia|]. destruct (Z.ltb_spec e 0); [lia|].
  set (len := Z.of_nat (List.length xs)).
  destruct (Z.le_ge_cases s len) as [Hs|Hs].
  - rewrite (Z.min_l s len Hs).
    assert (Hl : List.length (skipn (Z.to_nat s) xs) = Z.to_nat (len - s))
      by (rewrite length_skipn; unfold len; lia).
    destruct (Z.le_ge_cases e len) as [He|He].
    + rewrite (Z.min_l e len He). reflexivity.
    + rewrite (Z.min_r e len He).
      rewrite !firstn_all2 by lia. reflexivity.
  - rewrite (Z.min_r s len Hs), (Z.min_r e len ltac:(lia)), Z.sub_diag.
    rewrite (skipn_all2 (n := Z.to_nat s)) by (unfold len in Hs; lia).
    destruct (Z.to_nat (e - s)); reflexivity.
Qed.

Lemma currentSessions_page {A} (xs : list A) (p : Z) :
  1 <= p ->
  currentSessions xs p = firstn 20 (skipn (Z.to_nat ((p - 1) * 20)) xs).
Proof.
  intros H. unfold currentSessions, ITEMS_PER_PAGE.
  rewrite slice_nonneg by lia. f_equal. lia.
Qed.

Lemma pages_concat {A} (n : nat) : forall xs : list A,
  (List.length xs <= 20 * n)%nat ->
  concat (map (fun k => firstn 20 (skipn (20 * k) xs)) (seq 0 n)) = xs.
Proof.
  induction n as [|n IH]; intros xs Hl.
  - simpl. destruct xs; [reflexivity|simpl in Hl; lia].
  - cbn [seq map concat]. rewrite <- seq_shift, map_map.
    replace (map (fun x => firstn 20 (skipn (20 * S x) xs)) (seq 0 n))
      with (map (fun k => firstn 20 (skipn (20 * k) (skipn 20 xs))) (seq 0 n)).
    + rewrite IH by (rewrite length_skipn; lia).
      rewrite Nat.mul_0_r. simpl skipn. apply firstn_skipn.
    + apply map_ext. intros k. rewrite skipn_skipn. f_equal. f_equal. lia.
Qed.

Lemma totalPages_bounds (len : nat) :
  exists r, 0 <= r < 20 /\ 20 * totalPages len = Z.of_nat len + 19 - r.
Proof.
  unfold totalPages, ITEMS_PER_PAGE.
  exists ((Z.of_nat len + 20 - 1) mod 20).
  pose proof (Z.div_mod (Z.of_nat len + 20 - 1) 20 ltac:(lia)).
  pose proof (Z.mod_pos_bound (Z.of_nat len + 20 - 1) 20 ltac:(lia)).
  lia.
Qed.

(** Walking the pages [1 .. totalPages] of [SessionList] shows every
    session exactly once and in order: the pages concatenate back to the
    session list. *)
Theorem pages_cover_sessions {A} (sessions : list A) :
  concat (map (currentSessions sessions) (page_numbers (List.length sessions)))
    = sessions.
Proof.
  unfold page_numbers. rewrite map_map.
  destruct (totalPages_bounds (List.length sessions)) as (r & Hr & Ht).
  assert (Hp : 0 <= totalPages (List.length sessions))
    by (unfold totalPages, ITEMS_PER_PAGE; apply Z.div_pos; lia).
  rewrite <- seq_shift, map_map.
  erewrite (map_ext _ (fun k => firstn 20 (skipn (20 * k) sessions))).
  - apply pages_concat. lia.
  - intros k. rewrite currentSessions_page by lia. f_equal. f_equal. lia.
Qed.

(** A page shows at most [ITEMS_PER_PAGE] sessions, and page [p] (counted
    from 1) shows some session exactly when [p <= totalPages]. *)
Theorem page_bounds {A} (sessions : list A) (p : Z) :
  1 <= p ->
  (List.length (currentSessions sessions p) <= 20)%nat /\
  (currentSessions sessions p <> [] <-> p <= totalPages (List.length sessions)).
Proof.
  intros Hp. rewrite currentSessions_page by lia.
  destruct (totalPages_bounds (List.length sessions)) as (r & Hr & Ht).
  rewrite length_firstn. split; [lia|].
  rewrite <- length_zero_iff_nil, length_firstn, length_skipn. lia.
Qed.

Lemma page_bounds_witness :
  (List.length (currentSessions (seq 0 45) 3) <= 20)%nat /\
  (currentSessions (seq 0 45) 3 <> [] <-> 3 <= totalPages 45).
Proof.
  rewrite <- (length_seq 45 0) at 3. apply page_bounds. lia.
Defined.

Lemma pop_split_no_sep sep s : forall cur,
  has_char sep s = false -> pop_split sep s cur = cur ++ s.
Proof.
  induction s as [|c r IH]; intros cur H; simpl in *.
  - rewrite Proofs.str_app_nil_r. reflexivity.
  - apply orb_false_iff in H as [H1 H2]. rewrite H1, IH by exact H2.
    rewrite Proofs.str_app_assoc. reflexivity.
Qed.

(** A path with no [/] (a Windows path such as [C:\Users\me\proj]) becomes
    the tab title whole: its first alternative already yields the full
    path, so the backslash split is never reached. *)
Theorem dirName_no_slash (path : string) :
  has_char "/"%char path = false -> path <> "" -> dirName path = path.
Proof.
  intros H Hne. unfold dirName. rewrite (pop_split_no_sep _ _ "" H).
  simpl. destruct (String.eqb_spec path ""); [contradiction|reflexivity].
Qed.

Lemma dirName_no_slash_witness :
  dirName ("C:" ++ String (ascii_of_nat 92) "proj") =
  "C:" ++ String (ascii_of_nat 92) "proj".
Proof. apply dirName_no_slash; [reflexivity|discriminate]. Defined.

End SessionProofs.


Module StreamProofs.
Import Json Stream Facts Proofs.

Lemma dispatch_logs st m :
  messages (fst (dispatch st m)) = messages st /\
  rawJsonlOutput (fst (dispatch st m)) = rawJsonlOutput st /\
  currentSessionId (fst (dispatch st m)) = currentSessionId st.
Proof.
  unfold dispatch.
  destruct (type_is m "start"); [repeat split|].
  destruct (type_is m "partial").
  - destruct (truthy _ && _); [|repeat split].
    destruct (get m "tool_calls") as [[]|]; try (repeat split; fail).
    destruct (accumulate_all _ _). repeat split.
  - destruct (type_is m "response" && _); [repeat split|].
    destruct (type_is m "error" || _); [repeat split|].
    destruct (type_is m "output"); repeat split.
Qed.

Lemma dispatch_out_type st m st1 m' :
  dispatch st m = (st1, Some m') -> forall t, type_is m' t = type_is m t.
Proof.
  unfold dispatch.
  destruct (type_is m "start"); [intros [= _ <-]; reflexivity|].
  destruct (type_is m "partial").
  - destruct (truthy _ && _); [|intros [= _ <-]; reflexivity].
    destruct (get m "tool_calls") as [[]|]; try discriminate.
    destruct (accumulate_all _ _) as [acc [r|]]; [|discriminate].
    intros [= _ <-] t. apply type_is_set_prop. discriminate.
  - destruct (type_is m "response" && _); [intros [= _ <-]; reflexivity|].
    destruct (type_is m "error" || _); [intros [= _ <-]; reflexivity|].
    destruct (type_is m "output"); intros [= _ <-]; reflexivity.
Qed.

(** What [handleMessage] adds after the [if] chain touches neither the
    streaming flag nor the buffer, and the session id only for a
    [session_info] message. *)
Lemma handleMessage_after st m :
  m <> JNull ->
  isStreaming (fst (handleMessage st m)) = isStreaming (fst (dispatch st m)) /\
  accumulatedContent (fst (handleMessage st m)) =
    accumulatedContent (fst (dispatch st m)) /\
  (type_is m "session_info" = false ->
   currentSessionId (fst (handleMessage st m)) =
     currentSessionId (fst (dispatch st m))).
Proof.
  intros Hm. rewrite handleMessage_eq by exact Hm.
  destruct (dispatch st m) as [st1 [m'|]] eqn:E; [|repeat split].
  cbv zeta.
  rewrite (dispatch_out_type _ _ _ _ E "session_info").
  destruct (type_is m "session_info") eqn:Ts.
  - destruct (_ && _); [destruct (get m' "session_id"), (get m' "project_id")|];
      repeat split; discriminate.
  - rewrite !andb_false_l. repeat split.
Qed.

(** A [start] message turns streaming on, empties the accumulation
    buffer, reports [onStreamingChange(true, currentSessionId)] and is
    logged; nothing else changes. *)
Theorem start_message (st : state) (m : json) :
  type_is m "start" = true ->
  handleMessage st m =
  (mkState (app (messages st) [m]) (app (rawJsonlOutput st) [stringify m]) true
     (currentSessionId st) []
     (app (notified st) [StreamingChange true (currentSessionId st)])
     (console st), Returned).
Proof.
  intros H. rewrite handleMessage_eq by (exact (type_is_not_null _ _ H)).
  unfold dispatch. rewrite H. cbv zeta.
  rewrite (type_is_other _ _ "session_info" H). simpl.
  destruct st; reflexivity.
Qed.

Lemma start_message_witness :
  handleMessage initial start_msg =
  (mkState [start_msg] [stringify start_msg] true None []
     [StreamingChange true None] [], Returned).
Proof. apply (start_message initial start_msg). reflexivity. Defined.

(** An [error] message, or a [response] without a truthy [message.usage],
    turns streaming off and reports [onStreamingChange(false,
    currentSessionId)]; the accumulation buffer is kept. *)
Theorem stream_end_message (st : state) (m : json) :
  type_is m "error" = true \/
  (type_is m "response" = true /\
   truthy (get_opt (get m "message") "usage") = false) ->
  handleMessage st m =
  (mkState (app (messages st) [m]) (app (rawJsonlOutput st) [stringify m]) false
     (currentSessionId st) (accumulatedContent st)
     (app (notified st) [StreamingChange false (currentSessionId st)])
     (console st), Returned).
Proof.
  intros [H|[H Hu]].
  - rewrite handleMessage_eq by (exact (type_is_not_null _ _ H)).
    unfold dispatch. types H. cbv zeta. simpl.
    assert (Hsi : type_is m "session_info" = false)
      by (rewrite (type_is_other _ _ _ H); reflexivity).
    rewrite Hsi. simpl.
    destruct st; reflexivity.
  - rewrite handleMessage_eq by (exact (type_is_not_null _ _ H)).
    unfold dispatch. rewrite Hu. types H. cbv zeta. simpl.
    assert (Hsi : type_is m "session_info" = false)
      by (rewrite (type_is_other _ _ _ H); reflexivity).
    rewrite Hsi. simpl.
    destruct st; reflexivity.
Qed.

Lemma stream_end_message_witness :
  handleMessage initial (JObj [("type", JStr "error")]) =
  (mkState [JObj [("type", JStr "error")]]
     [stringify (JObj [("type", JStr "error")])] false None []
     [StreamingChange false None] [], Returned).
Proof. apply (stream_end_message initial). left. reflexivity. Defined.

(** The streaming flag changes only on [start], [error] and [response]
    messages; the buffer only on [start] and [partial] ones; the current
    session id only on [session_info] ones. *)
Theorem handleMessage_frame (st : state) (m : json) :
  (type_is m "start" = false -> type_is m "error" = false ->
   type_is m "response" = false ->
   isStreaming (fst (handleMessage st m)) = isStreaming st) /\
  (type_is m "start" = false -> type_is m "partial" = false ->
   accumulatedContent (fst (handleMessage st m)) = accumulatedContent st) /\
  (type_is m "session_info" = false ->
   currentSessionId (fst (handleMessage st m)) = currentSessionId st).
Proof.
  destruct (json_eq_null_dec m) as [->|Hm]; [repeat split|].
  destruct (handleMessage_after st m Hm) as (H1 & H2 & H3).
  repeat split.
  - intros Hs He Hr. rewrite H1. unfold dispatch. rewrite Hs, Hr, He.
    simpl andb; simpl orb. cbv iota.
    destruct (type_is m "partial").
    + destruct (truthy _ && _); [|reflexivity].
      destruct (get m "tool_calls") as [[]|]; try reflexivity.
      destruct (accumulate_all _ _). reflexivity.
    + destruct (type_is m "output"); reflexivity.
  - intros Hs Hp. rewrite H2. unfold dispatch. rewrite Hs, Hp. cbv iota.
    destruct (type_is m "response" && _); [reflexivity|].
    destruct (type_is m "error" || _); [reflexivity|].
    destruct (type_is m "output"); reflexivity.
  - intros Hs. rewrite (H3 Hs). apply dispatch_logs.
Qed.

Lemma handleMessage_frame_witness :
  isStreaming (fst (handleMessage (fst (handleMessage initial start_msg))
                      (JObj [("type", JStr "output")]))) = true.
Proof.
  rewrite (proj1 (handleMessage_frame _ _)) by reflexivity.
  reflexivity.
Defined.

Lemma handleMessage_raw st m :
  rawJsonlOutput st = map stringify (messages st) ->
  rawJsonlOutput (fst (handleMessage st m)) =
    map stringify (messages (fst (handleMessage st m))).
Proof.
  intros H. destruct (json_eq_null_dec m) as [->|Hm]; [exact H|].
  rewrite handleMessage_eq by exact Hm.
  destruct (dispatch_logs st m) as (E1 & E2 & _).
  destruct (dispatch st m) as [st1 [m'|]]; simpl in *.
  - destruct (_ && _); [destruct (get m' "session_id"), (get m' "project_id")|];
      simpl; rewrite map_app, E1, E2, H; reflexivity.
  - rewrite E1, E2. exact H.
Qed.

(** The raw log of a state fed by the [claude-stream] listener stays the
    serialisation of its message log, entry for entry: whatever the
    payloads, parse failures and handler throws included. *)
Theorem stream_raw_consistent (parse : string -> option json) (st : state)
    (payloads : list string) :
  rawJsonlOutput st = map stringify (messages st) ->
  rawJsonlOutput (ingest_all parse st payloads) =
    map stringify (messages (ingest_all parse st payloads)).
Proof.
  revert st. induction payloads as [|p rest IH]; intros st H; [exact H|].
  simpl. apply IH. unfold on_claude_stream.
  destruct (parse p) as [m|]; [|exact H].
  pose proof (handleMessage_raw st m H) as Hm.
  destruct (handleMessage st m) as [st' []]; exact Hm.
Qed.

Lemma stream_raw_consistent_witness :
  rawJsonlOutput (ingest_all Json.parse (clearMessages initial)
                    [Json.dq "{'type':'start'}"; "oops"; "null"]) =
  map stringify (messages (ingest_all Json.parse (clearMessages initial)
                    [Json.dq "{'type':'start'}"; "oops"; "null"])).
Proof. apply stream_raw_consistent. reflexivity. Defined.

Lemma split_nl_cons s : exists x xs, split_nl s = x :: xs.
Proof.
  destruct s as [|c r]; simpl; [eauto|].
  destruct (Nat.eqb (code c) 10); [eauto|].
  destruct (split_nl r); eauto.
Qed.

(** [split('\n')] and joining with the newline character are inverse: the
    pieces rebuild the text, and no piece holds a newline. *)
Theorem split_nl_unlines (s : string) :
  unlines (split_nl s) = s /\
  Forall (fun l => Sessions.has_char (ascii_of_nat 10) l = false) (split_nl s).
Proof.
  induction s as [|c r [IH1 IH2]]; [split; [reflexivity|repeat constructor]|].
  simpl. destruct (Nat.eqb (code c) 10) eqn:Ec.
  - apply Nat.eqb_eq in Ec. unfold code in Ec.
    assert (Hc : c = ascii_of_nat 10)
      by (rewrite <- Ec; symmetry; apply ascii_nat_embedding).
    destruct (split_nl_cons r) as (x & xs & Er). rewrite Er in *.
    split; [|constructor; [reflexivity|exact IH2]].
    change (unlines ("" :: x :: xs)) with
      ("" ++ String (ascii_of_nat 10) (unlines (x :: xs))).
    rewrite IH1, Hc. reflexivity.
  - destruct (split_nl_cons r) as (x & xs & Er). rewrite Er in *.
    inversion IH2 as [|? ? Hx Hxs].
    split.
    + rewrite <- IH1. destruct xs; reflexivity.
    + constructor; [|exact Hxs]. simpl. rewrite Hx, orb_false_r.
      apply Ascii.eqb_neq. intros ->. vm_compute in Ec. discriminate Ec.
Qed.

Lemma trim_end_idem s : trim_end (trim_end s) = trim_end s.
Proof.
  induction s as [|c r IH]; [reflexivity|]. simpl.
  destruct (is_space c && String.eqb (trim_end r) "") eqn:E; [reflexivity|].
  simpl. rewrite IH, E. reflexivity.
Qed.

Lemma trim_start_end s :
  trim_start (trim_end (trim_start s)) = trim_end (trim_start s).
Proof.
  induction s as [|c r IH]; [reflexivity|]. simpl.
  destruct (is_space c) eqn:Ec; [exact IH|]. simpl.
  rewrite Ec. simpl. rewrite Ec. reflexivity.
Qed.

(** [trim] is idempotent: a trimmed line is left as it is. *)
Theorem trim_idempotent (s : string) : trim (trim s) = trim s.
Proof. unfold trim. rewrite trim_start_end. apply trim_end_idem. Qed.

End StreamProofs.

Module McpToolsProofs.
Import Json McpTools.

(** A connection test whose lookup succeeds sets the tested server's
    entry to the tools it reports, keeps every other server's entry of an
    object-valued [serverTools], and stores the serialised result. *)
Theorem handleTestConnection_entries (st : mcp_state) (name : string)
    (kvs : list (string * json)) (d : json) :
  serverTools st = JObj kvs -> d <> JNull ->
  let st' := handleTestConnection st name (Some d) in
  get (serverTools st') name = Some (tools_of d) /\
  (forall k, k <> name -> get (serverTools st') k = assoc k kvs) /\
  stored st' = Some (stringify (serverTools st')).
Proof.
  intros Hs Hd. cbv zeta. unfold handleTestConnection.
  destruct d; try (exfalso; apply Hd; reflexivity);
    cbn [serverTools setItem set_tools stored get]; rewrite Hs; cbn [spread];
    (split; [apply Proofs.assoc_set_same|split; [|reflexivity]]);
    intros k Hk; apply Proofs.assoc_set_other; exact Hk.
Qed.

Lemma handleTestConnection_entries_witness :
  get (serverTools (handleTestConnection
         (mkMcp (JObj [("git", JArr [])]) None [] []) "fs"
         (Some (JObj [("status", JObj [("running", JBool true)])])))) "git"
    = Some (JArr []).
Proof.
  apply (handleTestConnection_entries _ "fs" [("git", JArr [])]);
    [reflexivity|discriminate|discriminate].
Defined.

Lemma assoc_snoc {A} k (l : list (string * A)) n r :
  assoc k (app l [(n, r)]) =
  match assoc k l with
  | Some v => Some v
  | None => if String.eqb k n then Some r else None
  end.
Proof.
  induction l as [|[k' v] l IH]; simpl; [reflexivity|].
  destruct (String.eqb k k'); [reflexivity|exact IH].
Qed.

Lemma refresh_loop_acc k results : forall st acc,
  assoc k (snd (refresh_loop st acc results)) =
  match assoc k (rev results) with
  | Some r => Some (match r with
                    | Some JNull | None => JArr []
                    | Some d => tools_of d
                    end)
  | None => assoc k acc
  end.
Proof.
  induction results as [|[n r] rest IH]; intros st acc; [reflexivity|].
  cbn [rev]. rewrite assoc_snoc.
  assert (Hstep : exists st1,
    refresh_loop st acc ((n, r) :: rest) =
    refresh_loop st1 (assoc_set n (match r with
                                   | Some JNull | None => JArr []
                                   | Some d => tools_of d
                                   end) acc) rest)
    by (destruct r as [[]|]; eexists; reflexivity).
  destruct Hstep as [st1 ->]. rewrite IH.
  destruct (assoc k (rev rest)); [reflexivity|].
  destruct (String.eqb_spec k n) as [->|Hne].
  - apply Proofs.assoc_set_same.
  - apply Proofs.assoc_set_other. exact Hne.
Qed.

(** Checking all statuses replaces the tool map instead of merging into
    it: afterwards a server has an entry exactly when it was among the
    results, holding the tools of its last result, [[]] for a failed or
    [null] lookup. *)
Theorem refresh_replaces (st : mcp_state)
    (results : list (string * option json)) (k : string) :
  get (serverTools (handleRefreshAllStatuses st results)) k =
  option_map (fun r => match r with
                       | Some JNull | None => JArr []
                       | Some d => tools_of d
                       end) (assoc k (rev results)).
Proof.
  unfold handleRefreshAllStatuses.
  pose proof (refresh_loop_acc k results st []) as H.
  destruct (refresh_loop st [] results) as [st1 acc]. simpl in *.
  rewrite H. destruct (assoc k (rev results)); reflexivity.
Qed.

End McpToolsProofs.


Module McpListProofs.
Import Json McpList.

Lemma fold_group_none l :
  fold_left group_step l None = None.
Proof. induction l; simpl; auto. Qed.

Lemma no_proto_keys_set acc k v :
  no_proto_keys acc -> ~ In k object_prototype_members ->
  no_proto_keys (assoc_set k v acc).
Proof.
  intros H Hk k' Hk'. rewrite Proofs.assoc_set_other; [auto|].
  intros ->. contradiction.
Qed.

Lemma existsb_member k :
  existsb (String.eqb k) object_prototype_members = true <->
  In k object_prototype_members.
Proof.
  rewrite existsb_exists. split.
  - intros (x & Hx & E). apply String.eqb_eq in E. subst. exact Hx.
  - intros H. exists k. split; [exact H|apply String.eqb_refl].
Qed.

Lemma group_step_some acc x :
  group_step (Some acc) x =
  match assoc (scope_of x) acc with
  | Some xs => Some (assoc_set (scope_of x) (app xs [x]) acc)
  | None =>
      if existsb (String.eqb (scope_of x)) object_prototype_members then None
      else Some (assoc_set (scope_of x) [x] (assoc_set (scope_of x) [] acc))
  end.
Proof. reflexivity. Qed.

Lemma fold_group_spec l : forall acc,
  no_proto_keys acc ->
  (fold_left group_step l (Some acc) = None <->
     exists s, In s l /\ In (scope_of s) object_prototype_members) /\
  (forall g, fold_left group_step l (Some acc) = Some g ->
     forall k, group k g =
       app (group k acc) (filter (fun s => String.eqb (scope_of s) k) l)).
Proof.
  induction l as [|x l IH]; intros acc Hacc.
  - simpl. split.
    + split; [discriminate|]. intros (s & [] & _).
    + intros g [= <-] k. rewrite app_nil_r. reflexivity.
  - cbn [fold_left]. rewrite group_step_some.
    destruct (assoc (scope_of x) acc) as [xs|] eqn:Ex.
    + assert (Hx : ~ In (scope_of x) object_prototype_members)
        by (intros Hin; rewrite (Hacc _ Hin) in Ex; discriminate).
      destruct (IH _ (no_proto_keys_set _ _ (app xs [x]) Hacc Hx)) as [IH1 IH2].
      split.
      * rewrite IH1. split.
        -- intros (s & Hs & Hp). exists s. split; [right|]; assumption.
        -- intros (s & [<-|Hs] & Hp); [contradiction|]. exists s; auto.
      * intros g Hg k. rewrite (IH2 g Hg k). unfold group.
        destruct (String.eqb_spec (scope_of x) k) as [<-|Hne].
        -- cbn [filter]. rewrite String.eqb_refl.
           rewrite Proofs.assoc_set_same, Ex, <- app_assoc. reflexivity.
        -- cbn [filter]. rewrite (proj2 (String.eqb_neq _ _) Hne).
           rewrite Proofs.assoc_set_other by congruence. reflexivity.
    + destruct (existsb (String.eqb (scope_of x)) object_prototype_members)
        eqn:Ep; cbv iota.
      * rewrite fold_group_none. split.
        -- split; [intros _|reflexivity]. exists x. split; [left; reflexivity|].
           apply existsb_member. exact Ep.
        -- discriminate.
      * assert (Hx : ~ In (scope_of x) object_prototype_members)
          by (rewrite <- existsb_member, Ep; discriminate).
        destruct (IH _ (no_proto_keys_set _ _ [x]
                          (no_proto_keys_set _ _ [] Hacc Hx) Hx)) as [IH1 IH2].
        split.
        -- rewrite IH1. split.
           ++ intros (s & Hs & Hp). exists s. split; [right|]; assumption.
           ++ intros (s & [<-|Hs] & Hp); [contradiction|]. exists s; auto.
        -- intros g Hg k. rewrite (IH2 g Hg k). unfold group.
           destruct (String.eqb_spec (scope_of x) k) as [<-|Hne].
           ++ cbn [filter]. rewrite String.eqb_refl.
              rewrite Proofs.assoc_set_same, Ex. reflexivity.
           ++ cbn [filter]. rewrite (proj2 (String.eqb_neq _ _) Hne).
              rewrite !Proofs.assoc_set_other by congruence. reflexivity.
Qed.

(** [serversByScope] throws exactly when some server's scope (after the
    ["local"] default) names a property inherited from [Object.prototype],
    such as ["toString"]; otherwise the group of every scope holds the
    servers with that scope, in list order, servers without a scope under
    ["local"]. *)
Theorem serversByScope_groups (servers : list MCPServer) :
  (serversByScope servers = None <->
     exists s, In s servers /\ In (scope_of s) object_prototype_members) /\
  (forall g, serversByScope servers = Some g ->
     forall scope, group scope g =
       filter (fun s => String.eqb (scope_of s) scope) servers).
Proof.
  destruct (fold_group_spec servers [] (fun _ _ => eq_refl)) as [H1 H2].
  split; [exact H1|]. intros g Hg k. exact (H2 g Hg k).
Qed.

Lemma serversByScope_groups_witness :
  serversByScope [mkServer "fs" None; mkServer "git" (Some "user");
                  mkServer "db" (Some "")] =
    Some [("local", [mkServer "fs" None; mkServer "db" (Some "")]);
          ("user", [mkServer "git" (Some "user")])] /\
  group "local" [("local", [mkServer "fs" None; mkServer "db" (Some "")]);
                 ("user", [mkServer "git" (Some "user")])] =
    filter (fun s => String.eqb (scope_of s) "local")
      [mkServer "fs" None; mkServer "git" (Some "user"); mkServer "db" (Some "")].
Proof.
  split; [reflexivity|].
  apply (proj2 (serversByScope_groups _)). reflexivity.
Defined.

Lemma set_delete_in x n s :
  NoDup s -> (In x (set_delete n s) <-> In x s /\ x <> n).
Proof.
  induction s as [|y r IH]; intros Hd; simpl; [tauto|].
  inversion Hd as [|? ? Hy Hr]; subst.
  destruct (String.eqb_spec y n) as [->|Hne]; simpl.
  - split; [intros H; split; [right; exact H|intros ->; contradiction]|].
    intros [[<-|H] Hx]; [contradiction|exact H].
  - rewrite (IH Hr). split.
    + intros [<-|[H Hx]]; split; auto; congruence.
    + intros [[<-|H] Hx]; auto.
Qed.

Lemma set_delete_nodup n s : NoDup s -> NoDup (set_delete n s).
Proof.
  induction s as [|y r IH]; intros Hd; simpl; [constructor|].
  inversion Hd as [|? ? Hy Hr]; subst.
  destruct (String.eqb y n); [exact Hr|].
  constructor; [|exact (IH Hr)].
  rewrite (set_delete_in _ _ _ Hr). tauto.
Qed.

Lemma nodup_snoc (s : list string) n :
  NoDup s -> ~ In n s -> NoDup (app s [n]).
Proof.
  induction s as [|y r IH]; intros Hd Hn; simpl.
  - constructor; [intros []|constructor].
  - inversion Hd as [|? ? Hy Hr]; subst. constructor.
    + rewrite in_app_iff. intros [H|[<-|[]]]; [contradiction|].
      apply Hn. left. reflexivity.
    + apply IH; [exact Hr|]. intros H. apply Hn. right. exact H.
Qed.

(** [toggleExpanded] keeps the expanded set free of duplicates and flips
    the membership of the toggled server alone. *)
Theorem toggleExpanded_flips (prev : list string) (serverName : string) :
  NoDup prev ->
  NoDup (toggleExpanded prev serverName) /\
  (In serverName (toggleExpanded prev serverName) <-> ~ In serverName prev) /\
  (forall x, x <> serverName ->
     In x (toggleExpanded prev serverName) <-> In x prev).
Proof.
  intros Hd. unfold toggleExpanded.
  destruct (existsb (String.eqb serverName) prev) eqn:E.
  - assert (Hin : In serverName prev).
    { apply existsb_exists in E as (y & Hy & Ey).
      apply String.eqb_eq in Ey. subst. exact Hy. }
    split; [apply set_delete_nodup; exact Hd|]. split.
    + rewrite (set_delete_in _ _ _ Hd). tauto.
    + intros x Hx. rewrite (set_delete_in _ _ _ Hd). tauto.
  - assert (Hin : ~ In serverName prev).
    { intros Hy. assert (existsb (String.eqb serverName) prev = true)
        by (apply existsb_exists; exists serverName; split;
            [exact Hy|apply String.eqb_refl]).
      congruence. }
    split; [apply nodup_snoc; assumption|]. split.
    + rewrite in_app_iff. simpl. tauto.
    + intros x Hx. rewrite in_app_iff. simpl. split; [|tauto].
      intros [H|[H|[]]]; [exact H|congruence].
Qed.

Lemma toggleExpanded_flips_witness :
  toggleExpanded (toggleExpanded ["fs"; "git"] "git") "git" = ["fs"; "git"] /\
  (In "git" (toggleExpanded ["fs"; "git"] "git") <-> ~ In "git" ["fs"; "git"]).
Proof.
  split; [reflexivity|].
  apply (toggleExpanded_flips ["fs"; "git"] "git").
  repeat constructor; simpl; intuition discriminate.
Defined.

End McpListProofs.


Module TabRouteProofs.
Import Tabs TabViews.

Lemma updateTab_in reg i f t :
  In t (tabs reg) ->
  In (if String.eqb (id t) i then f t else t) (tabs (updateTab reg i f)).
Proof.
  intros H. unfold updateTab. simpl.
  apply (in_map (fun t => if String.eqb (id t) i then f t else t)). exact H.
Qed.

Lemma find_active reg cur :
  active_tab reg = Some cur ->
  In cur (tabs reg) /\ activeTabId reg = Some (id cur).
Proof.
  unfold active_tab. intros H. apply find_some in H as [Hin Hp].
  split; [exact Hin|].
  destruct (activeTabId reg); [|discriminate].
  apply String.eqb_eq in Hp. subst. reflexivity.
Qed.

Lemma find_session reg sid t :
  findTabBySessionId reg sid = Some t ->
  In t (tabs reg) /\ sessionId t = Some sid.
Proof.
  unfold findTabBySessionId. intros H. apply find_some in H as [Hin Hp].
  split; [exact Hin|].
  destruct (sessionId t); [|discriminate].
  apply String.eqb_eq in Hp. subst. reflexivity.
Qed.

Lemma create_then_payload reg s :
  let '(reg1, tid) :=
    createChatTab reg (sess_id s) (projectName s) (project_path s) in
  exists t, In t (tabs (updateTab reg1 tid (with_payload s))) /\
    sessionId t = Some (sess_id s) /\
    activeTabId (updateTab reg1 tid (with_payload s)) = Some (id t).
Proof.
  cbn -[updateTab fresh_id].
  set (nt := mkTab (fresh_id reg) "chat" (projectName s) (Some (sess_id s))
               None (Some (project_path s))).
  exists (with_payload s nt). split; [|split; reflexivity].
  assert (Hin : In nt (tabs (mkRegistry (app (tabs reg) [nt]) (Some (fresh_id reg))
                                (S (next_id reg)))))
    by (simpl; apply in_or_app; right; left; reflexivity).
  pose proof (updateTab_in _ (fresh_id reg) (with_payload s) _ Hin) as H.
  simpl in H. rewrite String.eqb_refl in H. exact H.
Qed.

(** After either session-opening event ([open-session-in-tab] or
    [claude-session-selected]) the session is bound to a tab and that tab
    is the active one, whichever branch the handler took. *)
Theorem route_activates_session (reg : registry) (ev : session_event) :
  exists t, In t (tabs (route reg ev)) /\
    sessionId t = Some (sess_id (event_session ev)) /\
    activeTabId (route reg ev) = Some (id t).
Proof.
  assert (Hex : forall s existing,
    findTabBySessionId reg (sess_id s) = Some existing ->
    exists t, In t (tabs (switchTo (updateTab reg (id existing) (with_display s))
                            (id existing))) /\
      sessionId t = Some (sess_id s) /\
      activeTabId (switchTo (updateTab reg (id existing) (with_display s))
                     (id existing)) = Some (id t)).
  { intros s existing Hf. apply find_session in Hf as [Hin Hs].
    exists (with_display s existing). split; [|split; [exact Hs|reflexivity]].
    pose proof (updateTab_in _ (id existing) (with_display s) _ Hin) as H.
    rewrite String.eqb_refl in H. exact H. }
  destruct ev as [s|s]; simpl.
  - unfold handleOpenSessionInTab.
    destruct (findTabBySessionId reg (sess_id s)) as [existing|] eqn:Hf;
      [exact (Hex s existing Hf)|].
    pose proof (create_then_payload reg s) as Hc.
    destruct (createChatTab reg (sess_id s) (projectName s) (project_path s)).
    exact Hc.
  - unfold handleClaudeSessionSelected.
    destruct (findTabBySessionId reg (sess_id s)) as [existing|] eqn:Hf;
      [exact (Hex s existing Hf)|].
    fold (active_tab reg).
    pose proof (create_then_payload reg s) as Hc.
    destruct (active_tab reg) as [cur|] eqn:Ha.
    + destruct (String.eqb (tab_type cur) "projects").
      * apply find_active in Ha as [Hin Hact].
        exists (as_chat s cur). split; [|split; [reflexivity|exact Hact]].
        pose proof (updateTab_in _ (id cur) (as_chat s) _ Hin) as H.
        rewrite String.eqb_refl in H. exact H.
      * destruct (createChatTab reg (sess_id s) (projectName s) (project_path s)).
        exact Hc.
    + destruct (createChatTab reg (sess_id s) (projectName s) (project_path s)).
      exact Hc.
Qed.

(** The two session-opening handlers differ only when the session is not
    bound yet and the active tab is a [projects] tab: otherwise
    [claude-session-selected] does what [open-session-in-tab] does. *)
Theorem open_handlers_agree (reg : registry) (s : session) :
  (forall cur, active_tab reg = Some cur -> tab_type cur <> "projects") ->
  handleClaudeSessionSelected reg s = handleOpenSessionInTab reg s.
Proof.
  intros H. unfold handleClaudeSessionSelected, handleOpenSessionInTab.
  destruct (findTabBySessionId reg (sess_id s)); [reflexivity|].
  fold (active_tab reg).
  destruct (active_tab reg) as [cur|] eqn:Ha; [|reflexivity].
  destruct (String.eqb_spec (tab_type cur) "projects") as [E|_];
    [exfalso; exact (H cur eq_refl E)|reflexivity].
Qed.

Lemma open_handlers_agree_witness :
  handleClaudeSessionSelected
    (mkRegistry [mkTab "tab-0" "chat" "a" (Some "s0") None None] (Some "tab-0") 1)
    (mkSession "s1" "/home/u/proj") =
  handleOpenSessionInTab
    (mkRegistry [mkTab "tab-0" "chat" "a" (Some "s0") None None] (Some "tab-0") 1)
    (mkSession "s1" "/home/u/proj").
Proof.
  apply open_handlers_agree. intros cur Hc. vm_compute in Hc.
  injection Hc as <-. discriminate.
Defined.

(** When no tab holds the selected session and the active tab is a
    [projects] tab, [claude-session-selected] turns that tab into the
    session's chat tab in place: no tab is created, ids, the active tab and
    the id counter stay, and the tab now carries the session. *)
Theorem projects_tab_converted (reg : registry) (s : session) (cur : tab) :
  findTabBySessionId reg (sess_id s) = None ->
  active_tab reg = Some cur -> tab_type cur = "projects" ->
  let reg' := handleClaudeSessionSelected reg s in
  map id (tabs reg') = map id (tabs reg) /\
  activeTabId reg' = activeTabId reg /\
  next_id reg' = next_id reg /\
  In (as_chat s cur) (tabs reg').
Proof.
  intros Hf Ha Ht. cbv zeta. unfold handleClaudeSessionSelected.
  rewrite Hf. fold (active_tab reg). rewrite Ha, Ht. simpl String.eqb.
  cbv iota. apply find_active in Ha as [Hin _].
  split; [apply TabProofs.updateTab_ids; reflexivity|].
  split; [reflexivity|]. split; [reflexivity|].
  pose proof (updateTab_in _ (id cur) (as_chat s) _ Hin) as H.
  rewrite String.eqb_refl in H. exact H.
Qed.

Lemma projects_tab_converted_witness :
  map id (tabs (handleClaudeSessionSelected
    (mkRegistry [mkTab "tab-0" "projects" "Projects" None None None] (Some "tab-0") 1)
    (mkSession "s1" "/home/u/proj"))) = ["tab-0"].
Proof.
  destruct (projects_tab_converted
    (mkRegistry [mkTab "tab-0" "projects" "Projects" None None None] (Some "tab-0") 1)
    (mkSession "s1" "/home/u/proj")
    (mkTab "tab-0" "projects" "Projects" None None None)
    eq_refl eq_refl eq_refl) as (H & _).
  exact H.
Defined.

End TabRouteProofs.

